(** * The Neovolt / Byte-Watt API client, embedded in Rocq

    Source: [custom_components/bytewatt/api/neovolt_client.py].

    The client is a Python class whose coroutines talk to the vendor cloud
    over HTTP.  The embedding has three layers:

    - [Py]: the Python values a decoded JSON body is made of, with the
      handful of operations the client applies to them ([.get], [in],
      subscripting, truthiness, [==] against an integer, [*], [/],
      [round]), each raising what Python raises;
    - the coroutine monad [M]: a state ([self], the remaining vendor
      behaviour, the active timeout scopes, a trace of what was sent and
      logged) threaded through computations that return or raise;
    - the four coroutines of [NeovoltClient], written statement by
      statement as in the source.

    The vendor is a script: one [event] per awaited request, consumed in
    order.  A request either raises (transport failure, time-out, or the
    cancellation by which the deadline of an enclosing [asyncio.timeout]
    block cuts a pending await short) or is answered by a [response] with a
    status and a body that [json()] decodes or fails to decode.  When the
    script is exhausted the network is down and every request raises
    [ClientError]. *)

From Stdlib Require Import ZArith String Ascii List Bool Lia.
From Stdlib Require Import Floats.SpecFloat.
From stdpp Require Import base option gmap strings list fin_maps.

Set Warnings "-register-all".

Local Open Scope string_scope.
Local Open Scope list_scope.
Local Open Scope Z_scope.

(** The embedding lives in one name space, the theorems about it follow. *)
Module Neovolt.

Local Open Scope string_scope.
Local Open Scope list_scope.
Local Open Scope Z_scope.

(** ** Exceptions and outcomes *)

(** The exception classes that occur: the two the client catches
    ([asyncio.TimeoutError], [aiohttp.ClientError], the latter including
    [ContentTypeError], which [json()] raises on a body that is not declared
    as JSON), and the ones it does not. [ValueError] stands for
    [json.JSONDecodeError], its subclass.

    [CancelledError] is what an await raises when the deadline of an
    enclosing [asyncio.timeout] scope passes while it is pending (or when
    the caller cancels the task). It derives from [BaseException], so no
    [except (TimeoutError, ClientError)] catches it. Python keeps on the
    scope object whether it is the one that expired; here the exception
    says so: [outer] counts the scopes between the await and the expired
    one, 0 being the innermost scope around the await. *)
Inductive exn :=
| TimeoutError
| ClientError
| TypeError
| AttributeError
| KeyError
| ValueError
| OverflowError
| RecursionError
| CancelledError (outer : nat).

Inductive outcome (A : Type) :=
| Ret (a : A)
| Raise (e : exn).
Arguments Ret {A} a.
Arguments Raise {A} e.

Definition exn_eqb (a b : exn) : bool :=
  match a, b with
  | TimeoutError, TimeoutError | ClientError, ClientError
  | TypeError, TypeError | AttributeError, AttributeError
  | KeyError, KeyError | ValueError, ValueError | OverflowError, OverflowError
  | RecursionError, RecursionError => true
  | CancelledError m, CancelledError n => Nat.eqb m n
  | _, _ => false
  end.

(** [except (asyncio.TimeoutError, aiohttp.ClientError)] *)
Definition is_transport (e : exn) : bool :=
  match e with
  | TimeoutError | ClientError => true
  | _ => false
  end.

(** What leaves an [async with asyncio.timeout(...)] block in which [e] was
    raised: the scope that expired turns the cancellation into
    [TimeoutError] ([Timeout.__aexit__]), a scope inside it passes the
    cancellation on, and any other exception passes unchanged. *)
Definition at_exit (e : exn) : exn :=
  match e with
  | CancelledError O => TimeoutError
  | CancelledError (S outer) => CancelledError outer
  | _ => e
  end.

(** ** Python values *)

Module Py.

(** What [json.loads] produces: [None], [bool], [int], [float], [str],
    [list], [dict] with string keys. Floats are IEEE binary64, as the
    axiom-free [spec_float] of the standard library. *)
Inductive val :=
| None_
| Bool (b : bool)
| Int (n : Z)
| Float (f : spec_float)
| Str (s : string)
| List (l : list val)
| Dict (d : gmap string val).

(** *** binary64 *)

Definition prec : Z := 53.
Definition emax : Z := 1024.

Definition fmul : spec_float -> spec_float -> spec_float := SFmul prec emax.
Definition fdiv : spec_float -> spec_float -> spec_float := SFdiv prec emax.

(** The exact quotient of two integers, rounded once to binary64: what
    Python computes for [int / int], and for [float(n)] with [d = 1]. *)
Definition fquot (n : Z) (d : positive) : spec_float :=
  match n with
  | Z0 => S754_zero false
  | Zpos p => fdiv (S754_finite false p 0) (S754_finite false d 0)
  | Zneg p => fdiv (S754_finite true p 0) (S754_finite false d 0)
  end.

Definition float_of_int (n : Z) : spec_float := fquot n 1.

Definition is_infinite (f : spec_float) : bool :=
  match f with S754_infinity _ => true | _ => false end.

(** [f == n] for a float and an integer: Python compares the exact values. *)
Definition float_eq_int (f : spec_float) (n : Z) : bool :=
  match f with
  | S754_zero _ => n =? 0
  | S754_finite s m e =>
      let sm := if s then Z.neg m else Z.pos m in
      if 0 <=? e then sm * 2 ^ e =? n else sm =? n * 2 ^ (- e)
  | _ => false
  end.

(** Round half to even of [n / d], for [0 <= n] and [0 < d]. *)
Definition div_half_even (n d : Z) : Z :=
  let q := n / d in
  let r := n mod d in
  match 2 * r ?= d with
  | Lt => q
  | Gt => q + 1
  | Eq => if Z.even q then q else q + 1
  end.

(** [round(f, 2)] on a float: CPython renders the exact binary value
    with two decimals, rounding half to even, and reads the decimal string
    back as the nearest float; zeros, infinities and NaN round to
    themselves. A float with a non-negative exponent is an integer. *)
Definition fround2 (f : spec_float) : spec_float :=
  match f with
  | S754_finite s m e =>
      if 0 <=? e then f
      else
        match div_half_even (Z.pos m * 100) (2 ^ (- e)) with
        | Zpos q => fdiv (S754_finite s q 0) (S754_finite false 100 0)
        | _ => S754_zero s
        end
  | _ => f
  end.

(** *** Truthiness, equality with an [int], [is None] *)

(** [bool(v)], as used by [if v:], [not v] and [and]. *)
Definition truthy (v : val) : bool :=
  match v with
  | None_ => false
  | Bool b => b
  | Int n => negb (n =? 0)
  | Float f => match f with S754_zero _ => false | _ => true end
  | Str s => negb (String.eqb s "")
  | List l => match l with [] => false | _ => true end
  | Dict d => negb (bool_decide (map_to_list d = []))
  end.

(** [v == n] for an integer literal [n]: [bool] is a subclass of [int],
    floats compare by value, everything else is unequal. *)
Definition eq_int (v : val) (n : Z) : bool :=
  match v with
  | Bool b => Z.b2z b =? n
  | Int m => m =? n
  | Float f => float_eq_int f n
  | _ => false
  end.

(** [v == s] for a string literal [s]. *)
Definition eq_str (v : val) (s : string) : bool :=
  match v with
  | Str t => String.eqb t s
  | _ => false
  end.

Definition is_none (v : val) : bool :=
  match v with None_ => true | _ => false end.

(** *** Strings and sequences *)

Fixpoint str_contains (needle s : string) : bool :=
  String.prefix needle s
  || match s with
     | EmptyString => false
     | String _ s' => str_contains needle s'
     end.

Fixpoint str_repeat (s : string) (n : nat) : string :=
  match n with
  | O => ""
  | S n' => String.append s (str_repeat s n')
  end.

Fixpoint list_repeat (l : list val) (n : nat) : list val :=
  match n with
  | O => []
  | S n' => l ++ list_repeat l n'
  end.

(** *** Methods and operators, with the exceptions they raise *)

(** [v.get(key)]: only a [dict] has the method. *)
Definition get (v : val) (key : string) : outcome val :=
  match v with
  | Dict d => Ret (default None_ (d !! key))
  | _ => Raise AttributeError
  end.

(** [v.get(key, {})] *)
Definition get_or_empty (v : val) (key : string) : outcome val :=
  match v with
  | Dict d => Ret (default (Dict ∅) (d !! key))
  | _ => Raise AttributeError
  end.

(** [key in v] for a string literal [key]. *)
Definition contains (key : string) (v : val) : outcome bool :=
  match v with
  | Dict d => Ret (bool_decide (is_Some (d !! key)))
  | Str s => Ret (str_contains key s)
  | List l => Ret (existsb (fun x => eq_str x key) l)
  | _ => Raise TypeError
  end.

(** [v[key]] for a string literal [key]: a [dict] without the key raises
    [KeyError]; strings and lists take integer indices, the other types are
    not subscriptable. *)
Definition getitem (v : val) (key : string) : outcome val :=
  match v with
  | Dict d => match d !! key with Some x => Ret x | None => Raise KeyError end
  | _ => Raise TypeError
  end.

(** [v.keys()] *)
Definition keys (v : val) : outcome (list string) :=
  match v with
  | Dict d => Ret (map fst (map_to_list d))
  | _ => Raise AttributeError
  end.

(** [d.update(v)] on a [dict] [d]: a mapping is merged over [d], an empty
    iterable changes nothing, [None], numbers and booleans are not
    iterable. A non-empty string or list is iterated as a sequence of
    key/value pairs; the client never gets that far with one, because
    [list(v.keys())] is evaluated first and raises. Elements that are not
    pairs raise [ValueError] or [TypeError]; the model raises [TypeError]. *)
Definition update (d : gmap string val) (v : val) : outcome (gmap string val) :=
  match v with
  | Dict d' => Ret (d' ∪ d)
  | Str s => if String.eqb s "" then Ret d else Raise TypeError
  | List [] => Ret d
  | _ => Raise TypeError
  end.

(** [v * k] for an integer literal [k]. *)
Definition mul_int (v : val) (k : Z) : outcome val :=
  match v with
  | Bool b => Ret (Int (Z.b2z b * k))
  | Int n => Ret (Int (n * k))
  | Float f => Ret (Float (fmul f (float_of_int k)))
  | Str s => Ret (Str (str_repeat s (Z.to_nat k)))
  | List l => Ret (List (list_repeat l (Z.to_nat k)))
  | _ => Raise TypeError
  end.

(** [n / k] on integers: the correctly rounded quotient, [OverflowError]
    when it does not fit a float. *)
Definition int_truediv (n : Z) (k : positive) : outcome val :=
  let q := fquot n k in
  if is_infinite q then Raise OverflowError else Ret (Float q).

(** [v / k] for a positive integer literal [k]. *)
Definition truediv_int (v : val) (k : positive) : outcome val :=
  match v with
  | Bool b => int_truediv (Z.b2z b) k
  | Int n => int_truediv n k
  | Float f => Ret (Float (fdiv f (float_of_int (Z.pos k))))
  | _ => Raise TypeError
  end.

(** [round(v, 2)]: an [int] (or [bool]) comes back as the same [int],
    a float is rounded, nothing else has [__round__]. *)
Definition round2 (v : val) : outcome val :=
  match v with
  | Bool b => Ret (Int (Z.b2z b))
  | Int n => Ret (Int n)
  | Float f => Ret (Float (fround2 f))
  | _ => Raise TypeError
  end.

End Py.

Definition f_1_234 : spec_float := S754_finite false 5557441940175192 (-52).
(** [0.85] is [0x1.b333333333333p-1], [85.0] is [0x1.54p+6]. *)
Definition f_0_85 : spec_float := S754_finite false 7656119366529843 (-53).
Definition f_85_0 : spec_float := S754_finite false 5981343255101440 (-46).
(** [2.675] is [0x1.5666666666666p+1], below the decimal 2.675. *)
Definition f_2_675 : spec_float := S754_finite false 6023564501608038 (-51).
Definition f_2_67 : spec_float := S754_finite false 6012305502539612 (-51).

(** ** The vendor, the session and what is observed *)

(** A response as the client reads it: [response.status] and the outcome of
    [await response.json()]. [response.text()] appears only as a log
    argument and is not modelled. *)
Record response := mkResponse {
  status : Z;
  json : outcome Py.val
}.

(** What happens to one awaited request: it is answered, or the await
    raises. [Fails TimeoutError] and [Fails ClientError] are failures of the
    request itself; [Fails (CancelledError outer)] is the request still
    pending when the deadline of an enclosing scope passes. Reading the
    body is an await too: [json] may raise the same. *)
Inductive event :=
| Responds (r : response)
| Fails (e : exn).

Inductive payload :=
| JsonBody (user pass : string)      (* [json=payload] *)
| FormData (user pass : string).     (* [data=form_data] *)

Inductive request :=
| POST (url : string) (body : payload)
| GET (url : string) (params : list (string * string))
      (bearer : Py.val)                      (* [Authorization: Bearer ...] *)
      (headers : list (string * string)).    (* the other headers *)

Inductive level := ERROR | WARNING.

(** The trace: every request, with the bounds of the [asyncio.timeout]
    scopes it was issued under (innermost first), and every log record of
    level warning or above, by its format string. *)
Inductive obs :=
| Sent (bounds : list Z) (r : request)
| Logged (lvl : level) (msg : string).

(** The fields of [self] that the coroutines read or write. *)
Record NeovoltClient := mkClient {
  username : string;
  password : string;
  base_url : string;
  token : Py.val                     (* [Optional[str]], [None] at first *)
}.

Record world := mkWorld {
  self : NeovoltClient;
  script : list event;
  scopes : list Z;
  trace : list obs
}.

Definition DEFAULT_TIMEOUT : Z := 30.
Definition DEFAULT_BASE_URL : string := "https://monitor.byte-watt.com".

(** [NeovoltClient.__init__] *)
Definition init (username password base_url : string) : NeovoltClient :=
  mkClient username password base_url Py.None_.

(** ** Coroutines: state and exceptions *)

Definition M (A : Type) : Type := world -> outcome A * world.

Definition ret {A} (a : A) : M A := fun w => (Ret a, w).
Definition raise {A} (e : exn) : M A := fun w => (Raise e, w).

Definition bind {A B} (m : M A) (k : A -> M B) : M B :=
  fun w =>
    match m w with
    | (Ret a, w') => k a w'
    | (Raise e, w') => (Raise e, w')
    end.

Notation "'let!' x ':=' m 'in' k" := (bind m (fun x => k))
  (at level 10, x name, m at level 100, k at level 200).
Notation "'do!' m 'in' k" := (bind m (fun _ => k))
  (at level 10, m at level 100, k at level 200).

(** A pure Python operation that may raise. *)
Definition lift {A} (o : outcome A) : M A := fun w => (o, w).

(** [try: body except (asyncio.TimeoutError, aiohttp.ClientError): handler] *)
Definition try_except {A} (body : M A) (handler : M A) : M A :=
  fun w =>
    match body w with
    | (Raise e, w') => if is_transport e then handler w' else (Raise e, w')
    | r => r
    end.

Definition observe (o : obs) : M unit :=
  fun w => (Ret tt, mkWorld (self w) (script w) (scopes w) (trace w ++ [o])).

Definition log (lvl : level) (msg : string) : M unit := observe (Logged lvl msg).

(** [async with asyncio.timeout(bound): body]. The scope marks what runs
    under which bound. Its deadline passing shows as the pending await
    raising [CancelledError]; on the way out the scope turns its own
    cancellation into [TimeoutError], which an [except] around the block
    catches and one inside the block does not. *)
Definition with_timeout {A} (bound : Z) (body : M A) : M A :=
  fun w =>
    let '(r, w') := body (mkWorld (self w) (script w) (bound :: scopes w) (trace w)) in
    (match r with
     | Ret a => Ret a
     | Raise e => Raise (at_exit e)
     end,
     mkWorld (self w') (script w') (scopes w) (trace w')).

(** [await self.session.post(...)] / [await self.session.get(...)]: the
    request goes out, the next event of the script comes back. *)
Definition send (r : request) : M response :=
  fun w =>
    let t := trace w ++ [Sent (scopes w) r] in
    match script w with
    | [] => (Raise ClientError, mkWorld (self w) [] (scopes w) t)
    | Responds resp :: rest => (Ret resp, mkWorld (self w) rest (scopes w) t)
    | Fails e :: rest => (Raise e, mkWorld (self w) rest (scopes w) t)
    end.

Definition get_self : M NeovoltClient := fun w => (Ret (self w), w).

(** [self.token = t] *)
Definition set_token (t : Py.val) : M unit :=
  fun w =>
    let c := self w in
    (Ret tt, mkWorld (mkClient (username c) (password c) (base_url c) t)
                     (script w) (scopes w) (trace w)).

(** [result.get("code") != 0 and result.get("code") != 200] *)
Definition code_is_error (code : Py.val) : bool :=
  negb (Py.eq_int code 0) && negb (Py.eq_int code 200).

(** Sequencing of pure operations that may raise. *)
Definition and_then {A B} (o : outcome A) (k : A -> outcome B) : outcome B :=
  match o with
  | Ret a => k a
  | Raise e => Raise e
  end.

(** ** The client *)

Section Client.

(** [neovolt_auth.encrypt_password(password, username)]: the vendor's
    password transform lives in a module that is not among the sources; it
    is a parameter of the development. *)
Variable encrypt_password : string -> string -> string.

(** [dt_util.now()], as the two renderings the client sends: the time stamp
    of the [operationDate] header and the date of [endDate] and [tday]. *)
Variable operation_date : string.
Variable today : string.

Definition login_url (c : NeovoltClient) : string :=
  String.append (base_url c) "/api/usercenter/cloud/user/login".

(** [_get_auth_headers]: the [Authorization] header carries [self.token]. *)
Definition _get_auth_headers : M (Py.val * list (string * string)) :=
  let! c := get_self in
  ret (token c, [("Content-Type", "application/json")]).

(** Lines 79-89 of [async_login] and 132-142 of [_async_login_fallback]
    are the same statements up to the text of the error record:
    [[
      if "token" in result:
          self.token = result["token"]
      elif "data" in result and result["data"] and "token" in result["data"]:
          self.token = result["data"]["token"]
      else:
          _LOGGER.error(missing); return False
      return True
    ]] *)
Definition store_token (result : Py.val) (missing : string) : M bool :=
  let! top := lift (Py.contains "token" result) in
  if top then
    let! t := lift (Py.getitem result "token") in
    do! set_token t in
    ret true
  else
    let! has_data := lift (Py.contains "data" result) in
    let! nested :=
      (if has_data then
         let! d := lift (Py.getitem result "data") in
         if Py.truthy d then lift (Py.contains "token" d) else ret false
       else ret false) in
    if nested then
      let! d := lift (Py.getitem result "data") in
      let! t := lift (Py.getitem d "token") in
      do! set_token t in
      ret true
    else
      do! log ERROR missing in
      ret false.

(** [_async_login_fallback]: form data with the original password. *)
Definition _async_login_fallback : M bool :=
  let! c := get_self in
  try_except
    (with_timeout DEFAULT_TIMEOUT
       (let! response := send (POST (login_url c) (FormData (username c) (password c))) in
        if negb (status response =? 200) then
          do! log ERROR "Fallback login failed with status %s: %s" in
          ret false
        else
          let! result := lift (json response) in
          let! code := lift (Py.get result "code") in
          if code_is_error code then
            do! log ERROR "Fallback login failed with code %s: %s" in
            ret false
          else store_token result "No token found in fallback login response"))
    (do! log ERROR "Error connecting to Neovolt API with fallback method: %s" in
     ret false).

(** [async_login]: JSON payload with the encrypted password; every failure
    of the attempt hands over to the fallback. *)
Definition async_login : M bool :=
  let! c := get_self in
  let encrypted_password := encrypt_password (password c) (username c) in
  try_except
    (with_timeout DEFAULT_TIMEOUT
       (let! response := send (POST (login_url c) (JsonBody (username c) encrypted_password)) in
        if negb (status response =? 200) then
          do! log ERROR "Login failed with status %s: %s" in
          _async_login_fallback
        else
          let! result := lift (json response) in
          let! code := lift (Py.get result "code") in
          if code_is_error code then
            do! log ERROR "Login failed with code %s: %s" in
            _async_login_fallback
          else store_token result "No token found in login response"))
    (do! log ERROR "Error connecting to Neovolt API: %s" in
     _async_login_fallback).

(** [if not self.token: if not await self.async_login(): return None]:
    [true] when the coroutine goes on. *)
Definition ensure_token : M bool :=
  let! c := get_self in
  if negb (Py.truthy (token c)) then async_login else ret true.

(** [async_get_device_list]. Python bounds the depth of nested calls
    ([sys.getrecursionlimit()]) and raises [RecursionError] beyond it;
    [limit] is the number of nested invocations of the coroutine that fit. *)
Fixpoint async_get_device_list (limit : nat) : M Py.val :=
  match limit with
  | O => raise RecursionError
  | S limit' =>
      let! logged_in := ensure_token in
      if negb logged_in then ret Py.None_
      else
        let! c := get_self in
        let url := String.append (base_url c) "/api/devices/list" in
        let! headers := _get_auth_headers in
        try_except
          (with_timeout DEFAULT_TIMEOUT
             (let! response := send (GET url [] (fst headers) (snd headers)) in
              if negb (status response =? 200) then
                do! log ERROR "Failed to get device list with status %s: %s" in
                if status response =? 401 then
                  let! ok := async_login in
                  if ok then async_get_device_list limit' else ret Py.None_
                else ret Py.None_
              else
                let! result := lift (json response) in
                let! code := lift (Py.get result "code") in
                if code_is_error code then
                  do! log ERROR "Failed to get device list with code %s: %s" in
                  ret Py.None_
                else lift (Py.get result "data")))
          (do! log ERROR "Error fetching device list: %s" in
           ret Py.None_)
  end.

(** [battery_data[target] = data.get(source)] *)
Definition copy_field (data : Py.val) (battery_data : gmap string Py.val)
    (field : string * string) : outcome (gmap string Py.val) :=
  and_then (Py.get data (snd field))
           (fun v => Ret (<[fst field := v]> battery_data)).

Definition copy_fields (data : Py.val) (fields : list (string * string))
    (battery_data : gmap string Py.val) : outcome (gmap string Py.val) :=
  fold_left (fun acc field => and_then acc (fun bd => copy_field data bd field))
            fields (Ret battery_data).

(** [x = data.get(source); if x is not None: battery_data[target] = f(x)] *)
Definition convert_field (data : Py.val) (target source : string)
    (f : Py.val -> outcome Py.val) (battery_data : gmap string Py.val)
    : outcome (gmap string Py.val) :=
  and_then (Py.get data source)
           (fun x => if Py.is_none x then Ret battery_data
                     else and_then (f x) (fun y => Ret (<[target := y]> battery_data))).

(** [round(x * 100, 2)] *)
Definition percentage (x : Py.val) : outcome Py.val :=
  and_then (Py.mul_int x 100) Py.round2.

(** [round(x / 1000, 2)] *)
Definition kg_to_tons (x : Py.val) : outcome Py.val :=
  and_then (Py.truediv_int x 1000) Py.round2.

(** Lines 307-321, target and source of each assignment, in order. *)
Definition STATISTICS_FIELDS : list (string * string) :=
  [ ("Total_Solar_Generation", "epvT");
    ("Total_Feed_In", "eout");
    ("Total_Battery_Charge", "echarge");
    ("PV_Power_House", "epv2load");
    ("PV_Charging_Battery", "epvcharge");
    ("Total_House_Consumption", "eload");
    ("Grid_Based_Battery_Charge", "egridCharge");
    ("Grid_Power_Consumption", "einput") ].

(** Lines 368-374. *)
Definition TODAY_ENERGY_FIELDS : list (string * string) :=
  [ ("PV_Generated_Today", "epvtoday");
    ("Total_PV_Generation", "epvtotal");
    ("Consumed_Today", "eload");
    ("Feed_In_Today", "eoutput");
    ("Grid_Import_Today", "einput");
    ("Battery_Charged_Today", "echarge");
    ("Battery_Discharged_Today", "edischarge") ].

(** Lines 392-393. *)
Definition TODAY_INCOME_FIELDS : list (string * string) :=
  [ ("Today_Income", "todayIncome");
    ("Total_Income", "totalIncome") ].

(** Lines 367-393: the mapping of a truthy [today_data]. *)
Definition map_today (today_data : Py.val) (battery_data : gmap string Py.val)
    : outcome (gmap string Py.val) :=
  and_then (copy_fields today_data TODAY_ENERGY_FIELDS battery_data) (fun bd =>
  and_then (convert_field today_data "Self_Consumption" "eselfConsumption" percentage bd) (fun bd =>
  and_then (convert_field today_data "Self_Sufficiency" "eselfSufficiency" percentage bd) (fun bd =>
  and_then (copy_field today_data bd ("Trees_Planted", "treeNum")) (fun bd =>
  and_then (convert_field today_data "CO2_Reduction_Tons" "carbonNum" kg_to_tons bd) (fun bd =>
  copy_fields today_data TODAY_INCOME_FIELDS bd))))).

(** [station_id or ""] *)
Definition station_or_empty (station_id : option string) : string :=
  match station_id with
  | Some s => s
  | None => ""
  end.

Definition battery_headers (headers : Py.val * list (string * string))
    : list (string * string) :=
  snd headers ++
  [ ("Accept", "application/json, text/plain, */*");
    ("language", "en-US");
    ("operationDate", operation_date);
    ("platform", "AK9D8H");
    ("System", "alphacloud") ].

(** Lines 262-332, the energy statistics. [inl] is [return battery_data]
    from inside the block, [inr] falls through to the next block. *)
Definition energy_statistics (c : NeovoltClient) (station_id : option string)
    (headers : Py.val * list (string * string))
    (battery_data : gmap string Py.val)
    : M (gmap string Py.val + gmap string Py.val) :=
  let stats_url := String.append (base_url c) "/api/report/energy/getEnergyStatistics" in
  let stats_params :=
    [ ("sysSn", "All"); ("stationId", station_or_empty station_id);
      ("beginDate", "2020-01-01"); ("endDate", today) ] in
  with_timeout DEFAULT_TIMEOUT
    (let! got :=
       try_except
         (let! r := send (GET stats_url stats_params (fst headers) (battery_headers headers)) in
          ret (Some r))
         (do! log WARNING "Error fetching energy statistics: %s" in
          ret None) in
     match got with
     | None => ret (inl battery_data)
     | Some stats_response =>
         if status stats_response =? 200 then
           let! stats_result := lift (json stats_response) in
           let! code := lift (Py.get stats_result "code") in
           if Py.eq_int code 200 || Py.eq_int code 0 then
             let! stats_data := lift (Py.get_or_empty stats_result "data") in
             (* the debug record lists [stats_data.keys()] of a truthy value *)
             do! (if Py.truthy stats_data then lift (Py.keys stats_data)
                  else ret []) in
             if Py.truthy stats_data then
               let! bd := lift (copy_fields stats_data STATISTICS_FIELDS battery_data) in
               ret (inr bd)
             else ret (inr battery_data)
           else
             do! log WARNING "Failed to get energy statistics with code %s: %s" in
             ret (inr battery_data)
         else
           do! log WARNING "Failed to get energy statistics with status %s" in
           ret (inr battery_data)
     end).

(** Lines 334-407, today's statistics, up to [return battery_data]. *)
Definition todays_stats (c : NeovoltClient) (station_id : option string)
    (headers : Py.val * list (string * string))
    (battery_data : gmap string Py.val) : M (gmap string Py.val) :=
  let today_url := String.append (base_url c) "/api/stable/home/getSumDataForCustomer" in
  let today_params :=
    [ ("sn", "All"); ("stationId", station_or_empty station_id); ("tday", today) ] in
  with_timeout DEFAULT_TIMEOUT
    (let! got :=
       try_except
         (let! r := send (GET today_url today_params (fst headers) (battery_headers headers)) in
          ret (Some r))
         (do! log WARNING "Error fetching today's stats: %s" in
          ret None) in
     match got with
     | None => ret battery_data
     | Some today_response =>
         if status today_response =? 200 then
           let! today_result := lift (json today_response) in
           let! code := lift (Py.get today_result "code") in
           if Py.eq_int code 200 then
             let! today_data := lift (Py.get_or_empty today_result "data") in
             if Py.truthy today_data then lift (map_today today_data battery_data)
             else ret battery_data
           else
             do! log WARNING "Failed to get today's stats with code %s: %s" in
             ret battery_data
         else
           do! log WARNING "Failed to get today's stats with status %s" in
           ret battery_data
     end).

(** [async_get_battery_data]; [limit] as for the device list. *)
Fixpoint async_get_battery_data (limit : nat) (station_id : option string)
    : M Py.val :=
  match limit with
  | O => raise RecursionError
  | S limit' =>
      let! logged_in := ensure_token in
      if negb logged_in then ret Py.None_
      else
        let! c := get_self in
        let url := String.append (base_url c) "/api/report/energyStorage/getLastPowerData" in
        let params := [ ("sysSn", "All"); ("stationId", station_or_empty station_id) ] in
        let! headers := _get_auth_headers in
        try_except
          (let! power :=
             with_timeout DEFAULT_TIMEOUT
               (let! response := send (GET url params (fst headers) (battery_headers headers)) in
                if negb (status response =? 200) then
                  do! log ERROR "Failed to get battery power data with status %s: %s" in
                  if status response =? 401 then
                    let! ok := async_login in
                    if ok then
                      let! r := async_get_battery_data limit' station_id in
                      ret (inl r)
                    else ret (inl Py.None_)
                  else ret (inl Py.None_)
                else
                  let! result := lift (json response) in
                  let! code := lift (Py.get result "code") in
                  if code_is_error code then
                    do! log ERROR "Failed to get battery power data with code %s: %s" in
                    ret (inl Py.None_)
                  else
                    let! power_data := lift (Py.get_or_empty result "data") in
                    (* the debug record lists [power_data.keys()] of a truthy value *)
                    do! (if Py.truthy power_data then lift (Py.keys power_data)
                         else ret []) in
                    let! battery_data := lift (Py.update ∅ power_data) in
                    ret (inr battery_data)) in
           match power with
           | inl returned => ret returned
           | inr battery_data =>
               let! stats := energy_statistics c station_id headers battery_data in
               match stats with
               | inl returned => ret (Py.Dict returned)
               | inr battery_data =>
                   let! battery_data := todays_stats c station_id headers battery_data in
                   ret (Py.Dict battery_data)
               end
           end)
          (do! log ERROR "Error fetching battery data: %s" in
           ret Py.None_)
  end.

End Client.

(** ** Observations on traces and scripts *)

(** The requests of a trace, in order, without the timeout bounds. *)
Definition requests (t : list obs) : list request :=
  omap (fun o => match o with Sent _ r => Some r | Logged _ _ => None end) t.

(** The requests of a trace with the bounds they were sent under. *)
Definition sends (t : list obs) : list (list Z * request) :=
  omap (fun o => match o with Sent b r => Some (b, r) | Logged _ _ => None end) t.

(** The records logged, in order. *)
Definition logs (t : list obs) : list (level * string) :=
  omap (fun o => match o with Logged l m => Some (l, m) | Sent _ _ => None end) t.

Definition is_get_to (url : string) (r : request) : bool :=
  match r with
  | GET u _ _ _ => String.eqb u url
  | POST _ _ => false
  end.

(** How many [GET]s went to [url]. *)
Definition gets_to (url : string) (t : list obs) : nat :=
  length (filter (fun r => is_get_to url r = true) (requests t)).



Definition is_401 (ev : event) : bool :=
  match ev with
  | Responds r => status r =? 401
  | Fails _ => false
  end.

(** How many 401 responses a script holds. *)
Definition count401 (s : list event) : nat :=
  length (filter (fun ev => is_401 ev = true) s).

(** The token values a decoded body carries, at top level and under [data]. *)
Definition tokens_of (v : Py.val) : list Py.val :=
  match v with
  | Py.Dict d =>
      match d !! "token" with Some t => [t] | None => [] end ++
      match d !! "data" with
      | Some (Py.Dict dd) => match dd !! "token" with Some t => [t] | None => [] end
      | _ => []
      end
  | _ => []
  end.

(** The token values the vendor offers anywhere in a script. *)
Definition offered (s : list event) : list Py.val :=
  flat_map (fun ev => match ev with
                      | Responds r => match json r with Ret v => tokens_of v | Raise _ => [] end
                      | Fails _ => []
                      end) s.

(** Observations a login may add: [POST]s and error records. *)
Definition login_obs (o : obs) : bool :=
  match o with
  | Sent _ (POST _ _) => true
  | Sent _ (GET _ _ _ _) => false
  | Logged ERROR _ => true
  | Logged WARNING _ => false
  end.

(** Observations that are not a [GET] to [url]. *)
Definition not_get_to (url : string) (o : obs) : bool :=
  match o with
  | Sent _ r => negb (is_get_to url r)
  | Logged _ _ => true
  end.

(** ** Frame: what a coroutine may change *)

(** [ext P w w']: [w'] is [w] after steps that left the credentials, the
    base URL and the timeout scopes alone, consumed a prefix of the script
    and appended observations that all satisfy [P]. *)
Definition ext (P : obs -> bool) (w w' : world) : Prop :=
  username (self w') = username (self w)
  /\ password (self w') = password (self w)
  /\ base_url (self w') = base_url (self w)
  /\ scopes w' = scopes w
  /\ script w' `suffix_of` script w
  /\ exists t, trace w' = trace w ++ t /\ forallb P t = true.

(** [ext_tok P]: moreover the token is the old one or one that the vendor
    offered in the script. *)
Definition ext_tok (P : obs -> bool) (w w' : world) : Prop :=
  ext P w w'
  /\ (token (self w') = token (self w)
      \/ In (token (self w')) (offered (script w))).

(** Entering and leaving a timeout scope. *)
Definition enter (bound : Z) (w : world) : world :=
  mkWorld (self w) (script w) (bound :: scopes w) (trace w).

Definition leave (w w' : world) : world :=
  mkWorld (self w') (script w') (scopes w) (trace w').

(** A relation between the worlds before and after that composes along a
    coroutine: a preorder that timeout scopes do not disturb. *)
Class Frame (R : world -> world -> Prop) : Prop := {
  frame_refl : forall w, R w w;
  frame_trans : forall w1 w2 w3, R w1 w2 -> R w2 w3 -> R w1 w3;
  frame_scope : forall bound w w', R (enter bound w) w' -> R w (leave w w')
}.

(** The coroutine [m] takes every world to one related by [R]. *)
Definition keeps {A} (R : world -> world -> Prop) (m : M A) : Prop :=
  forall w, R w (snd (m w)).

Definition any_obs (o : obs) : bool := true.

(** No [TimeoutError] and no [ClientError] leaves the coroutine. *)
Definition contained {A} (o : outcome A) : Prop :=
  forall e, o = Raise e -> is_transport e = false.

Definition catches {A} (m : M A) : Prop :=
  forall w, contained (fst (m w)).

(** What a login attempt guarantees: the frame, the token left alone
    unless the attempt returns [True], a token that the vendor offered and
    a shorter script when it does, no transport error let through. *)
Definition login_post (w : world) (o : outcome bool) (w' : world) : Prop :=
  ext login_obs w w'
  /\ (o <> Ret true -> token (self w') = token (self w))
  /\ (o = Ret true ->
      In (token (self w')) (offered (script w))
      /\ (length (script w') < length (script w))%nat)
  /\ contained o.

(** ** Vocabulary of the claims *)

(** A response with status 200 whose body decodes to the mapping [d]. *)
Definition answers (d : gmap string Py.val) : event :=
  Responds (mkResponse 200 (Ret (Py.Dict d))).

(** [d.get("code")] *)
Definition code_of (d : gmap string Py.val) : Py.val :=
  default Py.None_ (d !! "code").

(** The second place a token may be, [data.token], holds none: [data] is
    missing or falsy, or the test ["token" in data] is false. *)
Definition data_lacks_token (d : gmap string Py.val) : bool :=
  match d !! "data" with
  | None => true
  | Some x =>
      negb (Py.truthy x)
      || match Py.contains "token" x with
         | Ret b => negb b
         | Raise _ => false
         end
  end.



(** The world after [self.token = t]. *)
Definition with_token (t : Py.val) (w : world) : world :=
  snd (set_token t w).

(** The world after one more observation. *)
Definition observed (o : obs) (w : world) : world :=
  snd (observe o w).

(** The two login requests. *)
Definition primary_request (enc : string -> string -> string) (c : NeovoltClient)
    : request :=
  POST (login_url c) (JsonBody (username c) (enc (password c) (username c))).

Definition fallback_request (c : NeovoltClient) : request :=
  POST (login_url c) (FormData (username c) (password c)).

(** Collaborators and worlds for the closed examples. *)
Definition sample_encrypt (password username : string) : string :=
  String.append "enc:" password.

Definition sample_operation_date : string := "2025-06-01 12:00:00".
Definition sample_today : string := "2025-06-01".

Definition sample_client (t : Py.val) : NeovoltClient :=
  mkClient "user" "secret" DEFAULT_BASE_URL t.

Definition start (t : Py.val) (s : list event) : world :=
  mkWorld (sample_client t) s [] [].

Definition body (fields : list (string * Py.val)) : Py.val :=
  Py.Dict (list_to_map fields).

Definition ok (fields : list (string * Py.val)) : event :=
  Responds (mkResponse 200 (Ret (body fields))).

Definition status_only (s : Z) : event :=
  Responds (mkResponse s (Raise ClientError)).

(** What an attempt, primary or fallback, makes of a success response with
    body [d], started in [w]: the top-level [token] first, [data.token]
    second, [False] with the token left alone when neither place has one. *)
Definition extracts (attempt : M bool) (w : world) (d : gmap string Py.val) : Prop :=
  (forall v, d !! "token" = Some v ->
     fst (attempt w) = Ret true /\ token (self (snd (attempt w))) = v)
  /\ (forall dd v,
        d !! "token" = None -> d !! "data" = Some (Py.Dict dd) ->
        dd !! "token" = Some v ->
        fst (attempt w) = Ret true /\ token (self (snd (attempt w))) = v)
  /\ (d !! "token" = None -> data_lacks_token d = true ->
      fst (attempt w) = Ret false
      /\ token (self (snd (attempt w))) = token (self w)).

(** Observations that are log records. *)
Definition is_logged (o : obs) : bool :=
  match o with
  | Logged _ _ => true
  | Sent _ _ => false
  end.

(** The endpoints of the two data requests that are retried. *)
Definition devices_url (c : NeovoltClient) : string :=
  String.append (base_url c) "/api/devices/list".

Definition power_url (c : NeovoltClient) : string :=
  String.append (base_url c) "/api/report/energyStorage/getLastPowerData".




(** The keys that today's summary copies as they are, with their sources. *)
Definition TODAY_COPIED_FIELDS : list (string * string) :=
  TODAY_ENERGY_FIELDS ++ [("Trees_Planted", "treeNum")] ++ TODAY_INCOME_FIELDS.

(** The keys that today's summary computes, with source and conversion. *)
Definition TODAY_CONVERTED_FIELDS
    : list (string * string * (Py.val -> outcome Py.val)) :=
  [ ("Self_Consumption", "eselfConsumption", percentage);
    ("Self_Sufficiency", "eselfSufficiency", percentage);
    ("CO2_Reduction_Tons", "carbonNum", kg_to_tons) ].

(** How many records with format string [msg] a trace holds. *)
Definition is_record (msg : string) (o : obs) : bool :=
  match o with
  | Logged _ m => String.eqb m msg
  | Sent _ _ => false
  end.

Definition records (msg : string) (t : list obs) : nat :=
  length (List.filter (is_record msg) t).

Definition not_record (msg : string) (o : obs) : bool := negb (is_record msg o).

(** The two acceptance tests applied to a vendor code. *)
Definition lenient (code : Py.val) : bool := Py.eq_int code 0 || Py.eq_int code 200.
Definition strict (code : Py.val) : bool := Py.eq_int code 200.

(** The responses that carry a vendor code, the test each is said to be
    put to, and the record written when the code is turned down. *)
Inductive endpoint :=
| Login
| FallbackLogin
| DeviceList
| PowerData
| EnergyStatistics
| TodaySummary.

Definition accepts (ep : endpoint) (code : Py.val) : bool :=
  match ep with
  | TodaySummary => strict code
  | _ => lenient code
  end.

Definition rejection (ep : endpoint) : string :=
  match ep with
  | Login => "Login failed with code %s: %s"
  | FallbackLogin => "Fallback login failed with code %s: %s"
  | DeviceList => "Failed to get device list with code %s: %s"
  | PowerData => "Failed to get battery power data with code %s: %s"
  | EnergyStatistics => "Failed to get energy statistics with code %s: %s"
  | TodaySummary => "Failed to get today's stats with code %s: %s"
  end.

(** A step from [w] to [w'] that saw body [d] at endpoint [ep] wrote the
    endpoint's rejection record exactly when the code of [d] fails the
    endpoint's test. *)
Definition judged (ep : endpoint) (d : gmap string Py.val) (w w' : world) : Prop :=
  records (rejection ep) (trace w')
  = (records (rejection ep) (trace w)
     + (if accepts ep (code_of d) then 0 else 1))%nat.

(** The mapping the power response contributes: its [data] when that is a
    mapping, nothing otherwise. *)
Definition power_data (d : gmap string Py.val) : gmap string Py.val :=
  match d !! "data" with
  | Some (Py.Dict pd) => pd
  | _ => ∅
  end.

(** The request for the real-time power data. *)
Definition power_request (operation_date : string) (c : NeovoltClient)
    (station_id : option string) : request :=
  GET (power_url c)
      [ ("sysSn", "All"); ("stationId", station_or_empty station_id) ]
      (token c)
      (battery_headers operation_date
         (token c, [("Content-Type", "application/json")])).

(** Lines 262-407 in one piece: what [async_get_battery_data] does with
    the record once the power data is in it. *)
Definition statistics_then_today (operation_date today : string)
    (c : NeovoltClient) (station_id : option string)
    (headers : Py.val * list (string * string))
    (battery_data : gmap string Py.val) : M Py.val :=
  let! stats := energy_statistics operation_date today c station_id headers battery_data in
  match stats with
  | inl returned => ret (Py.Dict returned)
  | inr battery_data =>
      let! battery_data := todays_stats operation_date today c station_id headers battery_data in
      ret (Py.Dict battery_data)
  end.

(** Lines 254-259: the power data of a decoded answer, merged into the
    empty record. *)
Definition merge_power_data (d : gmap string Py.val) : outcome (gmap string Py.val) :=
  and_then (Py.get_or_empty (Py.Dict d) "data") (fun power_data =>
  and_then (if Py.truthy power_data then Py.keys power_data else Ret []) (fun _ =>
  Py.update ∅ power_data)).

(** The three coroutines with the collaborators of the closed examples. *)
Definition login : M bool := async_login sample_encrypt.

Definition get_device_list : M Py.val := async_get_device_list sample_encrypt 100.

Definition get_battery_data : M Py.val :=
  async_get_battery_data sample_encrypt sample_operation_date sample_today 100 None.

(** The record of a returned mapping, empty for anything else. *)
Definition record_of (o : outcome Py.val) : gmap string Py.val :=
  match o with
  | Ret (Py.Dict rec) => rec
  | _ => ∅
  end.


(** ** Vocabulary of the further properties *)



(** The failures of a statistics or summary request that the block around
    it absorbs: the request raises a transport error or a time-out, the
    status is not 200, or the body is a mapping whose code fails the test
    [accept] of the block. *)
Definition tolerated (accept : Py.val -> bool) (ev : event) : bool :=
  match ev with
  | Fails e => is_transport e
  | Responds r =>
      if status r =? 200 then
        match json r with
        | Ret (Py.Dict d) => negb (accept (code_of d))
        | _ => false
        end
      else true
  end.

(** Whether the event makes the request itself raise. *)
Definition is_raised (ev : event) : bool :=
  match ev with
  | Fails _ => true
  | Responds _ => false
  end.

(** The keys the statistics block and today's summary may write. *)
Definition STATISTICS_KEYS : list string := map fst STATISTICS_FIELDS.

Definition TODAY_KEYS : list string :=
  map fst TODAY_COPIED_FIELDS ++ map (fun f => fst (fst f)) TODAY_CONVERTED_FIELDS.

(** The sources of the computed keys. *)
Definition CONVERTED_SOURCES : list string :=
  map (fun f => snd (fst f)) TODAY_CONVERTED_FIELDS.

(** An observation that is not a request sent outside a timeout of
    [DEFAULT_TIMEOUT]: for a request, the innermost scope it was sent in
    has that bound. *)
Definition timed (o : obs) : bool :=
  match o with
  | Sent (bound :: _) _ => bound =? DEFAULT_TIMEOUT
  | Sent [] _ => false
  | Logged _ _ => true
  end.

(** A request whose own timeout block expires on it: the request, or the
    reading of the body, is still pending when the deadline of the
    innermost scope passes. *)
Definition expires (ev : event) : bool :=
  match ev with
  | Fails (CancelledError O) => true
  | Responds r =>
      (status r =? 200)
      && match json r with
         | Raise (CancelledError O) => true
         | _ => false
         end
  | _ => false
  end.

(** The statistics responses after which the call goes on to today's
    summary: another status than 200, a rejected code, or an accepted code
    with a payload that is absent, falsy or a mapping. *)
Definition passes_statistics (ev : event) : bool :=
  match ev with
  | Fails _ => false
  | Responds r =>
      if status r =? 200 then
        match json r with
        | Ret (Py.Dict d) =>
            if lenient (code_of d) then
              match d !! "data" with
              | None => true
              | Some (Py.Dict _) => true
              | Some x => negb (Py.truthy x)
              end
            else true
        | _ => false
        end
      else true
  end.

End Neovolt.

Import Neovolt.

Local Open Scope string_scope.
Local Open Scope list_scope.
Local Open Scope Z_scope.

(** * Verification *)

(** * Facts *)

(** ** The frame relation is a preorder, and the combinators keep it *)

Lemma ext_refl P w : ext P w w.
Proof.
  repeat split; try done. exists []. by rewrite app_nil_r.
Qed.

Lemma ext_trans P w1 w2 w3 : ext P w1 w2 -> ext P w2 w3 -> ext P w1 w3.
Proof.
  intros (Hu & Hp & Hb & Hs & Hsuf & t & Ht & HP)
         (Hu' & Hp' & Hb' & Hs' & Hsuf' & t' & Ht' & HP').
  repeat split; try congruence.
  - by etrans.
  - exists (t ++ t'). rewrite Ht', Ht, <- app_assoc. split; [done|].
    rewrite forallb_app. by rewrite HP, HP'.
Qed.

Lemma ext_weaken (P Q : obs -> bool) w w' :
  (forall o, P o = true -> Q o = true) -> ext P w w' -> ext Q w w'.
Proof.
  intros HPQ (Hu & Hp & Hb & Hs & Hsuf & t & Ht & HP).
  repeat split; try done. exists t. split; [done|].
  rewrite forallb_forall in *. auto.
Qed.

Lemma ext_script_length P w w' :
  ext P w w' -> (length (script w') <= length (script w))%nat.
Proof. intros (_ & _ & _ & _ & Hsuf & _). by apply suffix_length. Qed.

Lemma offered_suffix s s' v : s' `suffix_of` s -> In v (offered s') -> In v (offered s).
Proof.
  intros [k ->] Hin. unfold offered in *. rewrite flat_map_app.
  apply in_or_app. by right.
Qed.

Lemma ext_tok_weaken (P Q : obs -> bool) w w' :
  (forall o, P o = true -> Q o = true) -> ext_tok P w w' -> ext_tok Q w w'.
Proof. intros HPQ [He Ht]. split; [by eapply ext_weaken | done]. Qed.

#[global] Instance ext_frame P : Frame (ext P).
Proof.
  split; [apply ext_refl | apply ext_trans |].
  intros bound w w' (Hu & Hp & Hbu & Hs & Hsuf & t & Ht & HP).
  repeat split; try done. by exists t.
Qed.

#[global] Instance ext_tok_frame P : Frame (ext_tok P).
Proof.
  split.
  - intros w. split; [apply ext_refl | by left].
  - intros w1 w2 w3 [He1 Ht1] [He2 Ht2]. split; [by eapply ext_trans|].
    destruct Ht2 as [Ht2|Ht2]; [rewrite Ht2; exact Ht1|].
    right. eapply offered_suffix; [|exact Ht2]. apply He1.
  - intros bound w w' [He Ht]. split; [by apply (frame_scope (R:=ext P)) in He|].
    exact Ht.
Qed.

Section Keeps.
Context (R : world -> world -> Prop) `{!Frame R}.

Lemma keeps_ret {A} (a : A) : keeps R (ret a).
Proof. intros w. apply frame_refl. Qed.

Lemma keeps_raise {A} e : keeps R (@raise A e).
Proof. intros w. apply frame_refl. Qed.

Lemma keeps_lift {A} (o : outcome A) : keeps R (lift o).
Proof. intros w. apply frame_refl. Qed.

Lemma keeps_get_self : keeps R get_self.
Proof. intros w. apply frame_refl. Qed.

Lemma keeps_bind {A B} (m : M A) (k : A -> M B) :
  keeps R m -> (forall a, keeps R (k a)) -> keeps R (bind m k).
Proof.
  intros Hm Hk w. unfold bind. specialize (Hm w).
  destruct (m w) as [[a|e] w']; simpl in *; [|done].
  eapply frame_trans; [exact Hm | apply Hk].
Qed.

Lemma keeps_try {A} (body handler : M A) :
  keeps R body -> keeps R handler -> keeps R (try_except body handler).
Proof.
  intros Hb Hh w. unfold try_except. specialize (Hb w).
  destruct (body w) as [[a|e] w']; simpl in *; [done|].
  destruct (is_transport e); simpl; [|done].
  eapply frame_trans; [exact Hb | apply Hh].
Qed.

Lemma keeps_with_timeout {A} bound (body : M A) :
  keeps R body -> keeps R (with_timeout bound body).
Proof.
  intros Hb w. unfold with_timeout. specialize (Hb (enter bound w)).
  unfold enter in Hb. destruct (body _) as [o w']; simpl in *.
  by apply frame_scope in Hb.
Qed.

End Keeps.

Lemma ext_set_token P t : keeps (ext P) (set_token t).
Proof. intros w. repeat split; try done. exists []. by rewrite app_nil_r. Qed.

Lemma ext_log P lvl msg : P (Logged lvl msg) = true -> keeps (ext P) (log lvl msg).
Proof.
  intros Ho w. repeat split; try done. exists [Logged lvl msg]. simpl. by rewrite Ho.
Qed.

Lemma ext_send P r :
  (forall bounds, P (Sent bounds r) = true) -> keeps (ext P) (send r).
Proof.
  intros Hr w. unfold send.
  destruct (script w) as [|[resp|e] rest] eqn:Hs; simpl;
    (repeat split; try done;
     [rewrite ?Hs; try done; by apply suffix_cons_r
     |eexists [_]; split; [done|]; simpl; by rewrite Hr]).
Qed.

Lemma ext_tok_log P lvl msg :
  P (Logged lvl msg) = true -> keeps (ext_tok P) (log lvl msg).
Proof. intros Ho w. split; [by apply ext_log | by left]. Qed.

Lemma ext_tok_send P r :
  (forall bounds, P (Sent bounds r) = true) -> keeps (ext_tok P) (send r).
Proof.
  intros Hr w. split; [by apply ext_send|]. left.
  unfold send. by destruct (script w) as [|[resp|e] rest].
Qed.

Lemma keeps_ext_weaken {A} (P Q : obs -> bool) (m : M A) :
  (forall o, P o = true -> Q o = true) -> keeps (ext_tok P) m -> keeps (ext_tok Q) m.
Proof. intros HPQ Hm w. eapply ext_tok_weaken; [exact HPQ | apply Hm]. Qed.

Lemma eqb_append_prefix b x y :
  String.eqb (String.append b x) (String.append b y) = String.eqb x y.
Proof.
  induction b as [|a b IH]; simpl; [done|]. by rewrite Ascii.eqb_refl.
Qed.

Create HintDb frame.

(** An observation is allowed: by computation, or because two endpoints
    under the same base URL differ. *)
Ltac obs_ok :=
  first [ reflexivity
        | assumption
        | simpl; unfold power_url, devices_url;
          rewrite eqb_append_prefix; reflexivity ].

(** Decompose a coroutine along its combinators; calls to coroutines with
    a frame lemma in [frame] are closed by it. *)
Ltac keep :=
  repeat first
    [ solve [eauto with frame]
    | apply keeps_ret | apply keeps_raise | apply keeps_lift
    | apply keeps_get_self | apply ext_set_token
    | apply keeps_bind | apply keeps_try | apply keeps_with_timeout
    | apply ext_log; obs_ok | apply ext_tok_log; obs_ok
    | apply ext_send; intros; obs_ok
    | apply ext_tok_send; intros; obs_ok
    | match goal with
      | |- Frame _ => typeclasses eauto
      | |- forall _, _ => intro
      | |- keeps _ (if ?b then _ else _) => destruct b
      | |- keeps _ (match ?x with _ => _ end) => destruct x
      end ].

(** ** Transport errors are contained *)

Lemma contained_ret {A} (a : A) : contained (Ret a).
Proof. intros e H. discriminate. Qed.

Lemma catches_ret {A} (a : A) : catches (ret a).
Proof. intros w. apply contained_ret. Qed.

Lemma catches_bind {A B} (m : M A) (k : A -> M B) :
  catches m -> (forall a, catches (k a)) -> catches (bind m k).
Proof.
  intros Hm Hk w. unfold bind. specialize (Hm w).
  destruct (m w) as [[a|e] w']; simpl in *; [apply Hk|].
  intros e' [= <-]. by apply Hm.
Qed.

Lemma catches_log lvl msg : catches (log lvl msg).
Proof. intros w. apply contained_ret. Qed.

Lemma catches_get_self : catches get_self.
Proof. intros w. apply contained_ret. Qed.

(** Whatever the body does, a handler that lets no transport error out
    makes the whole [try] contain them. *)
Lemma catches_try {A} (body handler : M A) :
  catches handler -> catches (try_except body handler).
Proof.
  intros Hh w. unfold try_except.
  destruct (body w) as [[a|e] w'] eqn:Hb; simpl; [apply contained_ret|].
  destruct (is_transport e) eqn:He; [apply Hh|].
  intros e' [= <-]. exact He.
Qed.


Section LoginFacts.
Context (encrypt_password : string -> string -> string).

Local Abbreviation async_login := (async_login encrypt_password).
Local Abbreviation ensure_token := (ensure_token encrypt_password).

(** *** Frame of the login coroutines *)

Lemma store_token_frame result missing :
  keeps (ext login_obs) (store_token result missing).
Proof. unfold store_token. keep. Qed.

Lemma fallback_frame : keeps (ext login_obs) _async_login_fallback.
Proof. unfold _async_login_fallback. pose proof store_token_frame. keep. Qed.

Lemma login_frame : keeps (ext login_obs) async_login.
Proof.
  unfold Neovolt.async_login. pose proof store_token_frame. pose proof fallback_frame.
  keep.
Qed.

Lemma fallback_catches : catches _async_login_fallback.
Proof.
  unfold _async_login_fallback.
  apply catches_bind; [apply catches_get_self|]. intros c.
  apply catches_try, catches_bind; [apply catches_log | intros; apply catches_ret].
Qed.

Lemma login_catches : catches async_login.
Proof.
  unfold Neovolt.async_login.
  apply catches_bind; [apply catches_get_self|]. intros c.
  apply catches_try, catches_bind; [apply catches_log | intros; apply fallback_catches].
Qed.

End LoginFacts.

(** ** Tokens: where they come from, when they change *)

Ltac unfold_m :=
  unfold bind, try_except, with_timeout, send, get_self, lift, log, observe,
    ret, raise, set_token in *.

(** A raised exception is followed through the handlers around it. *)
Ltac through_handlers :=
  repeat match goal with
         | |- context [is_transport ?x] =>
             let H := fresh "Htr" in destruct (is_transport x) eqn:H; simpl in *
         end.

Lemma store_token_spec result missing w :
  (fst (store_token result missing w) <> Ret true ->
   token (self (snd (store_token result missing w))) = token (self w))
  /\ (fst (store_token result missing w) = Ret true ->
      In (token (self (snd (store_token result missing w)))) (tokens_of result))
  /\ contained (fst (store_token result missing w)).
Proof.
  unfold store_token, tokens_of, Py.contains, Py.getitem. unfold_m.
  unfold contained.
  destruct result; simpl; try by (repeat split; intros; simplify_eq).
  all: repeat (first [ case_match
                     | match goal with
                       | |- context [if ?b then _ else _] => destruct b eqn:?
                       end ]; simplify_eq/=).
  all: repeat split; intros; simplify_eq; try congruence;
    try done; try (by left); try (by right; left);
    try (apply in_or_app; right; by left).
Qed.

(** What [store_token] raises comes from an operation on the body: it is
    no cancellation and nothing a handler of the client catches. *)
Lemma store_token_raises result missing w e :
  fst (store_token result missing w) = Raise e ->
  at_exit e = e /\ is_transport e = false.
Proof.
  unfold store_token, Py.contains, Py.getitem. unfold_m.
  destruct result; simpl; try by intros [= <-].
  all: repeat (first [ case_match
                     | match goal with
                       | |- context [if ?b then _ else _] => destruct b eqn:?
                       end ]; simplify_eq/=).
  all: try done; try by intros [= <-].
Qed.

Section LoginTokens.
Context (encrypt_password : string -> string -> string).

Local Abbreviation async_login := (async_login encrypt_password).

Lemma fallback_token w :
  (fst (_async_login_fallback w) <> Ret true ->
   token (self (snd (_async_login_fallback w))) = token (self w))
  /\ (fst (_async_login_fallback w) = Ret true ->
      In (token (self (snd (_async_login_fallback w)))) (offered (script w))
      /\ (length (script (snd (_async_login_fallback w))) < length (script w))%nat).
Proof.
  unfold _async_login_fallback. unfold_m.
  destruct w as [c [|[[st j]|e] rest] sc tr]; simpl.
  - split; [done | intros [=]].
  - destruct (st =? 200); simpl; [|split; [done | intros [=]]].
    destruct j as [result|e]; simpl;
      [|destruct (is_transport (at_exit e)); split; (done || intros [=])].
    destruct (Py.get result "code") as [code|e]; simpl;
      [|destruct (is_transport (at_exit e)); split; (done || intros [=])].
    destruct (code_is_error code); simpl; [split; [done | intros [=]]|].
    match goal with |- context [store_token ?r ?m ?w] =>
      pose proof (store_token_spec r m w) as (H1 & H2 & H3);
      pose proof (store_token_frame r m w) as Hf;
      destruct (store_token r m w) as [[b|e] w'] end; simpl in *.
    + split; [exact H1|]. intros Hb. split.
      * apply in_or_app. left. by apply H2.
      * apply ext_script_length in Hf. simpl in Hf. lia.
    + destruct (is_transport (at_exit e)); simpl;
        (split; [intros _; by apply H1 | intros [=]]).
  - destruct (is_transport (at_exit e)); simpl; split; done || intros [=].
Qed.

Lemma fallback_post w :
  login_post w (fst (_async_login_fallback w)) (snd (_async_login_fallback w)).
Proof.
  pose proof (fallback_token w) as [H1 H2].
  split; [apply fallback_frame|]. split; [exact H1|]. split; [exact H2|].
  apply fallback_catches.
Qed.

End LoginTokens.

Section LoginPost.
Context (encrypt_password : string -> string -> string).

Local Abbreviation async_login := (async_login encrypt_password).

(** The fallback, run from a world [w1] reached from [w], keeps what a
    login promises about [w]. *)
Lemma fallback_post_from w w1 :
  ext login_obs w w1 -> token (self w1) = token (self w) ->
  login_post w (fst (_async_login_fallback w1)) (snd (_async_login_fallback w1)).
Proof.
  intros Hext Htok.
  destruct (fallback_post w1) as (Hf & H1 & H2 & Hc).
  split; [by eapply ext_trans|].
  split; [intros Hne; rewrite H1; done|].
  split; [|done].
  intros Hb. destruct (H2 Hb) as [Hin Hlen]. split.
  - eapply offered_suffix; [|exact Hin]. apply Hext.
  - apply ext_script_length in Hext. lia.
Qed.

Opaque _async_login_fallback store_token.

(** Case analysis on a call of the fallback or of [store_token] in the
    goal, with what is known of its result. *)
Ltac use_fallback :=
  match goal with
  | |- context [_async_login_fallback ?w1] =>
      let Ht := fresh "Ht" in
      let Hf := fresh "Hf" in
      let Hl := fresh "Hl" in
      let Ho := fresh "Ho" in
      pose proof (fallback_token w1) as Ht;
      pose proof (fallback_frame w1) as Hf;
      pose proof (ext_script_length _ _ _ Hf) as Hl;
      pose proof (fun v => offered_suffix _ _ v
                    (proj1 (proj2 (proj2 (proj2 (proj2 Hf)))))) as Ho;
      clear Hf;
      let b := fresh "b" in
      let e := fresh "e" in
      let w' := fresh "w'" in
      destruct (_async_login_fallback w1) as [[b|e] w']; simpl in *;
      through_handlers
  end.

Ltac use_store_token :=
  match goal with
  | |- context [store_token ?r ?m ?w1] =>
      let Ht := fresh "Ht" in
      let Hf := fresh "Hf" in
      let Hc := fresh "Hc" in
      let Hs := fresh "Hs" in
      let Ho := fresh "Ho" in
      pose proof (store_token_spec r m w1) as (Ht & Hs & Hc);
      pose proof (store_token_frame r m w1) as Hf;
      pose proof (fun v => offered_suffix _ _ v
                    (proj1 (proj2 (proj2 (proj2 (proj2 Hf)))))) as Ho;
      apply ext_script_length in Hf;
      let b := fresh "b" in
      let e := fresh "e" in
      let w' := fresh "w'" in
      destruct (store_token r m w1) as [[b|e] w']; simpl in *;
      through_handlers
  end.

Ltac close_token :=
  simpl in *; intuition (try congruence; try lia; eauto using in_or_app).

Lemma login_token w :
  (fst (async_login w) <> Ret true ->
   token (self (snd (async_login w))) = token (self w))
  /\ (fst (async_login w) = Ret true ->
      In (token (self (snd (async_login w)))) (offered (script w))
      /\ (length (script (snd (async_login w))) < length (script w))%nat).
Proof.
  unfold Neovolt.async_login. unfold_m.
  destruct w as [c [|[[st j]|e] rest] sc tr]; simpl.
  - repeat use_fallback; close_token.
  - destruct (st =? 200); simpl; [|repeat use_fallback; close_token].
    destruct j as [result|e]; simpl.
    + destruct (Py.get result "code") as [code|e]; simpl.
      * destruct (code_is_error code); simpl; [repeat use_fallback; close_token|].
        use_store_token; repeat use_fallback; close_token.
      * through_handlers; repeat use_fallback; close_token.
    + through_handlers; repeat use_fallback; close_token.
  - through_handlers; repeat use_fallback; close_token.
Qed.

Lemma login_post_holds w :
  login_post w (fst (async_login w)) (snd (async_login w)).
Proof.
  pose proof (login_token w) as [H1 H2].
  split; [apply login_frame|]. split; [exact H1|]. split; [exact H2|].
  apply login_catches.
Qed.

End LoginPost.

(** ** Frame and containment of the public coroutines *)

Section Operations.
Context (encrypt_password : string -> string -> string)
        (operation_date today : string).

Local Abbreviation async_login := (async_login encrypt_password).
Local Abbreviation ensure_token := (ensure_token encrypt_password).
Local Abbreviation async_get_device_list :=
  (async_get_device_list encrypt_password).
Local Abbreviation async_get_battery_data :=
  (async_get_battery_data encrypt_password operation_date today).
Local Abbreviation energy_statistics := (energy_statistics operation_date today).
Local Abbreviation todays_stats := (todays_stats operation_date today).

Lemma login_keeps : keeps (ext_tok login_obs) async_login.
Proof.
  intros w. destruct (login_post_holds encrypt_password w) as (He & H1 & H2 & _).
  split; [exact He|].
  destruct (fst (async_login w)) as [[|]|e].
  - right. by apply H2.
  - left. by apply H1.
  - left. by apply H1.
Qed.

Lemma login_keeps_any : keeps (ext_tok any_obs) async_login.
Proof. eapply keeps_ext_weaken; [|apply login_keeps]. done. Qed.

Hint Resolve login_keeps_any : frame.

Lemma ensure_token_keeps : keeps (ext_tok any_obs) ensure_token.
Proof. unfold Neovolt.ensure_token. keep. Qed.

Hint Resolve ensure_token_keeps : frame.

Lemma energy_statistics_keeps c station_id headers battery_data :
  keeps (ext_tok any_obs) (energy_statistics c station_id headers battery_data).
Proof. unfold Neovolt.energy_statistics. keep. Qed.

Lemma todays_stats_keeps c station_id headers battery_data :
  keeps (ext_tok any_obs) (todays_stats c station_id headers battery_data).
Proof. unfold Neovolt.todays_stats. keep. Qed.

Hint Resolve energy_statistics_keeps todays_stats_keeps : frame.

Lemma device_list_keeps limit : keeps (ext_tok any_obs) (async_get_device_list limit).
Proof.
  induction limit as [|limit IH]; simpl; [apply keeps_raise; apply _|].
  unfold _get_auth_headers. keep.
Qed.

Lemma battery_data_keeps limit station_id :
  keeps (ext_tok any_obs) (async_get_battery_data limit station_id).
Proof.
  induction limit as [|limit IH]; simpl; [apply keeps_raise; apply _|].
  unfold _get_auth_headers. keep.
Qed.




End Operations.

(** ** Token extraction, exactly *)

Transparent store_token.

Lemma truthy_dict_lookup (d : gmap string Py.val) k v :
  d !! k = Some v -> Py.truthy (Py.Dict d) = true.
Proof.
  intros Hk. simpl. rewrite bool_decide_eq_false_2; [done|].
  intros Hnil. apply map_to_list_empty_iff in Hnil. subst d.
  by rewrite lookup_empty in Hk.
Qed.

Lemma store_token_top d missing v w :
  d !! "token" = Some v ->
  store_token (Py.Dict d) missing w = (Ret true, with_token v w).
Proof.
  intros Hv. unfold store_token, with_token. unfold_m. simpl.
  rewrite Hv. by rewrite bool_decide_eq_true_2.
Qed.

Lemma store_token_nested d dd missing v w :
  d !! "token" = None -> d !! "data" = Some (Py.Dict dd) -> dd !! "token" = Some v ->
  store_token (Py.Dict d) missing w = (Ret true, with_token v w).
Proof.
  intros Hnone Hdata Hv. unfold store_token, with_token. unfold_m. simpl.
  rewrite Hnone, Hdata. simpl.
  pose proof (truthy_dict_lookup dd _ _ Hv) as Ht. simpl in Ht. rewrite Ht.
  rewrite Hv. simpl. done.
Qed.

Lemma store_token_missing d missing w :
  d !! "token" = None -> data_lacks_token d = true ->
  store_token (Py.Dict d) missing w = (Ret false, observed (Logged ERROR missing) w).
Proof.
  intros Hnone Hlack. unfold store_token, observed, data_lacks_token in *.
  unfold_m. simpl. rewrite Hnone.
  destruct (d !! "data") as [x|] eqn:Hdata; simpl; [|done].
  destruct (Py.truthy x); simpl in *; [|done].
  destruct (Py.contains "token" x) as [[|]|e]; simpl in *; done.
Qed.

Opaque store_token.

Section Login.
Context (encrypt_password : string -> string -> string).

Local Abbreviation async_login := (async_login encrypt_password).

Transparent _async_login_fallback.

(** A fallback attempt that is answered with a success response does what
    [store_token] does with the body. *)
Lemma fallback_on_answer d rest c sc tr :
  code_is_error (code_of d) = false ->
  let w := mkWorld c (answers d :: rest) sc tr in
  let r := store_token (Py.Dict d) "No token found in fallback login response"
             (mkWorld c rest (DEFAULT_TIMEOUT :: sc)
                      (tr ++ [Sent (DEFAULT_TIMEOUT :: sc) (fallback_request c)])) in
  fst (_async_login_fallback w) = fst r
  /\ self (snd (_async_login_fallback w)) = self (snd r).
Proof.
  intros Hcode w r. subst w r. unfold _async_login_fallback, code_of in *.
  unfold_m. simpl. rewrite Hcode.
  pose proof (store_token_spec (Py.Dict d) "No token found in fallback login response"
    (mkWorld c rest (DEFAULT_TIMEOUT :: sc)
       (tr ++ [Sent (DEFAULT_TIMEOUT :: sc) (fallback_request c)]))) as (_ & _ & Hc).
  unfold fallback_request, login_url in *.
  match goal with |- context [store_token ?r ?m ?w1] =>
    pose proof (store_token_raises r m w1) as Hr;
    destruct (store_token r m w1) as [[b|e] w'] end; simpl in *; [done|].
  destruct (Hr e eq_refl) as [-> ->]. done.
Qed.

Opaque _async_login_fallback.

Lemma login_on_answer d rest c sc tr :
  code_is_error (code_of d) = false ->
  let w := mkWorld c (answers d :: rest) sc tr in
  let r := store_token (Py.Dict d) "No token found in login response"
             (mkWorld c rest (DEFAULT_TIMEOUT :: sc)
                      (tr ++ [Sent (DEFAULT_TIMEOUT :: sc)
                                   (primary_request encrypt_password c)])) in
  fst (async_login w) = fst r
  /\ self (snd (async_login w)) = self (snd r).
Proof.
  intros Hcode w r. subst w r. unfold Neovolt.async_login, code_of in *.
  unfold_m. simpl. rewrite Hcode.
  pose proof (store_token_spec (Py.Dict d) "No token found in login response"
    (mkWorld c rest (DEFAULT_TIMEOUT :: sc)
       (tr ++ [Sent (DEFAULT_TIMEOUT :: sc) (primary_request encrypt_password c)])))
    as (_ & _ & Hc).
  unfold primary_request, login_url in *.
  match goal with |- context [store_token ?r ?m ?w1] =>
    pose proof (store_token_raises r m w1) as Hr;
    destruct (store_token r m w1) as [[b|e] w'] end; simpl in *; [done|].
  destruct (Hr e eq_refl) as [-> ->]. done.
Qed.

End Login.

Section LoginClaims.
Context (encrypt_password : string -> string -> string).

Local Abbreviation async_login := (async_login encrypt_password).

Lemma extracts_of_store_token (attempt : M bool) w d msg w1 :
  self w1 = self w ->
  fst (attempt w) = fst (store_token (Py.Dict d) msg w1) ->
  self (snd (attempt w)) = self (snd (store_token (Py.Dict d) msg w1)) ->
  extracts attempt w d.
Proof.
  intros Hself Hfst Hsnd. unfold extracts. rewrite Hfst, Hsnd.
  split; [|split].
  - intros v Hv. by rewrite (store_token_top _ _ _ _ Hv).
  - intros dd v Hn Hd Hv. by rewrite (store_token_nested _ _ _ _ _ Hn Hd Hv).
  - intros Hn Hl. rewrite (store_token_missing _ _ _ Hn Hl). simpl.
    by rewrite Hself.
Qed.

(** C3 (amended). For every success login response (status 200, a JSON
    object whose [code] is 0 or 200), each login attempt, primary and
    fallback alike, looks for the token under the top-level key [token]
    first and under [data.token] second; when it returns [True] the
    session's token is the value found; when neither place holds a token
    ([token] is absent and [data] is absent, falsy, or a container without
    ["token"]) the attempt returns [False] and leaves the token alone. *)
Theorem token_extraction_order w d rest :
  script w = answers d :: rest ->
  code_is_error (code_of d) = false ->
  extracts async_login w d /\ extracts _async_login_fallback w d.
Proof.
  intros Hs Hcode. destruct w as [c s sc tr]. simpl in Hs. subst s. split.
  - destruct (login_on_answer encrypt_password d rest c sc tr Hcode) as [H1 H2].
    by refine (extracts_of_store_token _ _ _ _ _ _ H1 H2).
  - destruct (fallback_on_answer d rest c sc tr Hcode) as [H1 H2].
    by refine (extracts_of_store_token _ _ _ _ _ _ H1 H2).
Qed.

(** C8. Whenever [login()] does not return [True] (it returns [False],
    whichever attempts failed and for whatever reason, or an exception
    leaves it) the token field is what it was before the call: absent stays
    absent, a stale token stays in place. *)
Theorem failed_login_keeps_token w :
  fst (async_login w) <> Ret true ->
  token (self (snd (async_login w))) = token (self w).
Proof. intros Hne. by apply login_token. Qed.

End LoginClaims.

(** ** What a login sends *)

Lemma sends_app t1 t2 : sends (t1 ++ t2) = sends t1 ++ sends t2.
Proof. unfold sends. apply omap_app. Qed.

Lemma requests_app t1 t2 : requests (t1 ++ t2) = requests t1 ++ requests t2.
Proof. unfold requests. apply omap_app. Qed.

Lemma sends_logged t : forallb is_logged t = true -> sends t = [].
Proof.
  induction t as [|[b r|l m] t IH]; simpl; [done|done|]. intros H. by apply IH.
Qed.

Lemma ext_logged_sends w w' :
  ext is_logged w w' -> sends (trace w') = sends (trace w).
Proof.
  intros (_ & _ & _ & _ & _ & t & -> & Ht).
  by rewrite sends_app, (sends_logged _ Ht), app_nil_r.
Qed.

Ltac sends_done :=
  rewrite ?sends_app; simpl; rewrite ?app_nil_r, <- ?app_assoc; done.

Transparent store_token.
Lemma store_token_logs result missing :
  keeps (ext is_logged) (store_token result missing).
Proof. unfold store_token. keep. Qed.
Opaque store_token.

Section Fallback.
Context (encrypt_password : string -> string -> string).

Local Abbreviation async_login := (async_login encrypt_password).

Transparent _async_login_fallback.

(** The fallback sends exactly one request, the form-encoded one, under
    its own timeout bound. *)
Lemma fallback_sends w :
  sends (trace (snd (_async_login_fallback w)))
  = sends (trace w) ++ [(DEFAULT_TIMEOUT :: scopes w, fallback_request (self w))].
Proof.
  unfold _async_login_fallback, fallback_request. unfold_m.
  destruct w as [c [|[[st j]|e] rest] sc tr]; simpl.
  - sends_done.
  - destruct (st =? 200); simpl; [|sends_done].
    destruct j as [result|e]; simpl; [|through_handlers; sends_done].
    destruct (Py.get result "code") as [code|e]; simpl;
      [|through_handlers; sends_done].
    destruct (code_is_error code); simpl; [sends_done|].
    match goal with |- context [store_token ?r ?m ?w1] =>
      pose proof (store_token_logs r m w1) as Hl;
      apply ext_logged_sends in Hl;
      destruct (store_token r m w1) as [[b|e] w'] end; simpl in *.
    + rewrite Hl. sends_done.
    + through_handlers; rewrite ?sends_app, Hl; sends_done.
  - through_handlers; sends_done.
Qed.



Opaque _async_login_fallback.

End Fallback.

Lemma ext_fallback_request P w w' :
  ext P w w' -> fallback_request (self w') = fallback_request (self w).
Proof.
  intros (Hu & Hp & Hb & _). unfold fallback_request, login_url.
  by rewrite Hu, Hp, Hb.
Qed.

Section FallbackClaim.
Context (encrypt_password : string -> string -> string).

Local Abbreviation async_login := (async_login encrypt_password).






Transparent Neovolt.async_login.


Opaque Neovolt.async_login.


End FallbackClaim.

(** ** The token over the public operations *)

Section TokenClaims.
Context (encrypt_password : string -> string -> string)
        (operation_date today : string).

Local Abbreviation async_login := (async_login encrypt_password).
Local Abbreviation async_get_device_list :=
  (async_get_device_list encrypt_password).
Local Abbreviation async_get_battery_data :=
  (async_get_battery_data encrypt_password operation_date today).

(** C9 (amended). In every reachable session state and for each of the
    three public operations, the token field afterwards is either the
    token it held before or a value that a response of the vendor carried
    under [token] or [data.token]: the client never resets the field
    itself.  (A held token therefore gives way to an absent one only when
    the vendor's own success response carries a null token.) *)
Theorem token_only_replaced_by_offered limit station_id w :
  let unchanged_or_offered (w' : world) :=
    token (self w') = token (self w) \/ In (token (self w')) (offered (script w)) in
  unchanged_or_offered (snd (async_login w))
  /\ unchanged_or_offered (snd (async_get_device_list limit w))
  /\ unchanged_or_offered (snd (async_get_battery_data limit station_id w)).
Proof.
  simpl. split; [|split].
  - apply (login_keeps encrypt_password w).
  - apply (device_list_keeps encrypt_password limit w).
  - apply (battery_data_keeps encrypt_password operation_date today limit station_id w).
Qed.


End TokenClaims.

(** Both ways through every handler in the goal. *)
Ltac handled :=
  repeat match goal with
         | |- context [is_transport ?x] => destruct (is_transport x)
         end.

(** ** Counting requests *)

Lemma gets_to_app url t1 t2 :
  gets_to url (t1 ++ t2) = (gets_to url t1 + gets_to url t2)%nat.
Proof. unfold gets_to. by rewrite requests_app, filter_app, length_app. Qed.


Lemma gets_to_none url t :
  forallb (not_get_to url) t = true -> gets_to url t = 0%nat.
Proof.
  induction t as [|[b r|l m] t IH]; simpl; [done| |done].
  intros [Hr Ht]%andb_prop. unfold gets_to in *. simpl.
  rewrite filter_cons. destruct (decide _) as [Hd|Hd]; [|by apply IH].
  rewrite Hd in Hr. done.
Qed.

Lemma ext_gets url P w w' :
  (forall o, P o = true -> not_get_to url o = true) ->
  ext P w w' -> gets_to url (trace w') = gets_to url (trace w).
Proof.
  intros HP Hext. apply (ext_weaken _ _ _ _ HP) in Hext.
  destruct Hext as (_ & _ & _ & _ & _ & t & -> & Ht).
  rewrite gets_to_app, (gets_to_none _ _ Ht). lia.
Qed.

Lemma login_obs_not_get url o : login_obs o = true -> not_get_to url o = true.
Proof. by destruct o as [b [u p|u p br h]|[] m]. Qed.

Lemma count401_suffix s s' : s' `suffix_of` s -> (count401 s' <= count401 s)%nat.
Proof.
  intros [k ->]. unfold count401. rewrite filter_app, length_app. lia.
Qed.









Section Retry.
Context (encrypt_password : string -> string -> string)
        (operation_date today : string).

Local Abbreviation async_login := (async_login encrypt_password).
Local Abbreviation ensure_token := (ensure_token encrypt_password).
Local Abbreviation async_get_device_list :=
  (async_get_device_list encrypt_password).
Local Abbreviation async_get_battery_data :=
  (async_get_battery_data encrypt_password operation_date today).
Local Abbreviation energy_statistics := (energy_statistics operation_date today).
Local Abbreviation todays_stats := (todays_stats operation_date today).

Hint Resolve login_frame : frame.


Opaque Neovolt.async_login Neovolt.ensure_token.

(** What a call to a login coroutine leaves for the count of [GET]s to
    [url] and of 401 responses still to come. *)
Lemma login_ext_counts url w w' :
  ext login_obs w w' ->
  gets_to url (trace w') = gets_to url (trace w)
  /\ (count401 (script w') <= count401 (script w))%nat
  /\ base_url (self w') = base_url (self w).
Proof.
  intros Hext. split; [|split].
  - eapply ext_gets; [apply login_obs_not_get | exact Hext].
  - apply count401_suffix, Hext.
  - apply Hext.
Qed.

Ltac call_login f w1 :=
  let Hf := fresh "Hf" in
  let b := fresh "b" in
  let e := fresh "e" in
  let w' := fresh "w'" in
  pose proof (f w1) as Hf;
  apply (login_ext_counts _ _ _) in Hf;
  destruct Hf as (? & ? & ?).




Opaque Neovolt.energy_statistics Neovolt.todays_stats.


End Retry.

(** ** Retrying after a 401 *)

Section Cycles.
Context (encrypt_password : string -> string -> string)
        (operation_date today : string).

Local Abbreviation async_login := (async_login encrypt_password).
Local Abbreviation ensure_token := (ensure_token encrypt_password).
Local Abbreviation async_get_device_list :=
  (async_get_device_list encrypt_password).
Local Abbreviation async_get_battery_data :=
  (async_get_battery_data encrypt_password operation_date today).

Transparent Neovolt.async_login Neovolt.ensure_token.



Opaque Neovolt.async_login Neovolt.ensure_token.





End Cycles.

(** ** Today's summary: which keys are written *)

Lemma and_then_ret {A B} (o : outcome A) (k : A -> outcome B) r :
  and_then o k = Ret r -> exists a, o = Ret a /\ k a = Ret r.
Proof. destruct o as [a|e]; simpl; [by exists a | done]. Qed.

Lemma copy_field_dict td bd field :
  copy_field (Py.Dict td) bd field
  = Ret (<[fst field := default Py.None_ (td !! snd field)]> bd).
Proof. done. Qed.

Lemma copy_fields_dict td fields bd :
  copy_fields (Py.Dict td) fields bd
  = Ret (fold_left (fun acc f => <[fst f := default Py.None_ (td !! snd f)]> acc) fields bd).
Proof.
  unfold copy_fields. revert bd.
  induction fields as [|f fields IH]; intros bd; simpl; [done|].
  by rewrite <- IH.
Qed.

Lemma convert_field_dict td target source f bd :
  convert_field (Py.Dict td) target source f bd
  = match td !! source with
    | None | Some Py.None_ => Ret bd
    | Some x => and_then (f x) (fun y => Ret (<[target := y]> bd))
    end.
Proof. unfold convert_field. simpl. by destruct (td !! source) as [[]|]. Qed.

(** A conversion writes its own key and no other. *)
Lemma convert_field_spec td target source f bd bd' :
  convert_field (Py.Dict td) target source f bd = Ret bd' ->
  (forall k, k <> target -> bd' !! k = bd !! k)
  /\ match td !! source with
     | None | Some Py.None_ => bd' !! target = bd !! target
     | Some x => exists y, f x = Ret y /\ bd' !! target = Some y
     end.
Proof.
  rewrite convert_field_dict.
  destruct (td !! source) as [x|]; [|by intros [= <-]].
  assert (and_then (f x) (fun y => Ret (<[target := y]> bd)) = Ret bd' ->
          (forall k, k <> target -> bd' !! k = bd !! k)
          /\ exists y, f x = Ret y /\ bd' !! target = Some y) as Hset.
  { intros (y & Hy & [= <-])%and_then_ret. split.
    - intros k Hk. by rewrite lookup_insert_ne.
    - exists y. by rewrite lookup_insert_eq. }
  destruct x; try exact Hset. by intros [= <-].
Qed.

Lemma map_today_spec td acc rec :
  map_today (Py.Dict td) acc = Ret rec ->
  (forall target source, In (target, source) TODAY_COPIED_FIELDS ->
     rec !! target = Some (default Py.None_ (td !! source)))
  /\ (forall target source f, In (target, source, f) TODAY_CONVERTED_FIELDS ->
        match td !! source with
        | None | Some Py.None_ => rec !! target = acc !! target
        | Some x => exists y, f x = Ret y /\ rec !! target = Some y
        end).
Proof.
  unfold map_today. rewrite copy_fields_dict.
  cbn [and_then fold_left TODAY_ENERGY_FIELDS fst snd].
  intros (b1 & [K1 C1]%convert_field_spec & H)%and_then_ret.
  apply and_then_ret in H as (b2 & [K2 C2]%convert_field_spec & H).
  rewrite copy_field_dict in H. cbn [and_then fst snd] in H.
  apply and_then_ret in H as (b3 & [K3 C3]%convert_field_spec & H).
  rewrite copy_fields_dict in H.
  cbn [fold_left TODAY_INCOME_FIELDS fst snd] in H. injection H as <-.
  split.
  - intros target source Hin. simpl in Hin.
    repeat (destruct Hin as [[= <- <-]|Hin]); [..|done].
    all: rewrite ?lookup_insert_eq, ?lookup_insert_ne by done; try done.
    all: rewrite ?K3 by done; rewrite ?lookup_insert_eq, ?lookup_insert_ne by done; try done.
    all: rewrite K2, K1 by done; by simplify_map_eq.
  - intros target source f Hin. simpl in Hin.
    repeat (destruct Hin as [[= <- <- <-]|Hin]); [..|done].
    + rewrite !lookup_insert_ne, K3, lookup_insert_ne, K2 by done.
      destruct (td !! "eselfConsumption") as [[]|]; try done.
      all: by rewrite C1; simplify_map_eq.
    + rewrite !lookup_insert_ne, K3, lookup_insert_ne by done.
      destruct (td !! "eselfSufficiency") as [[]|]; try done.
      all: by rewrite C2, K1 by done; simplify_map_eq.
    + rewrite !lookup_insert_ne by done.
      destruct (td !! "carbonNum") as [[]|]; try done.
      all: by rewrite C3, lookup_insert_ne, K2, K1 by done; simplify_map_eq.
Qed.

(** What the field mapping raises comes from the arithmetic: it is no
    cancellation. *)
Lemma and_then_raise {A B} (o : outcome A) (k : A -> outcome B) e :
  and_then o k = Raise e -> o = Raise e \/ exists a, o = Ret a /\ k a = Raise e.
Proof. destruct o as [a|e']; simpl; [right; by exists a | intros [= ->]; by left]. Qed.

Lemma percentage_raises x e : percentage x = Raise e -> e = TypeError.
Proof.
  unfold percentage. destruct x; cbn [Py.mul_int and_then Py.round2];
    by intros [= <-].
Qed.

Lemma kg_to_tons_raises x e :
  kg_to_tons x = Raise e -> e = TypeError \/ e = OverflowError.
Proof.
  unfold kg_to_tons, Py.truediv_int, Py.int_truediv.
  destruct x; simpl; try destruct (Py.is_infinite _); simpl; intros [= <-]; auto.
Qed.

Lemma convert_field_raises td target source f bd e :
  convert_field (Py.Dict td) target source f bd = Raise e ->
  exists x, f x = Raise e.
Proof.
  rewrite convert_field_dict.
  destruct (td !! source) as [x|]; [|done].
  assert (and_then (f x) (fun y => Ret (<[target := y]> bd)) = Raise e ->
          exists x, f x = Raise e) as Hset.
  { intros [H|(y & _ & H)]%and_then_raise; [by exists x | done]. }
  destruct x; try exact Hset. done.
Qed.

Lemma map_today_raises td bd e :
  map_today (Py.Dict td) bd = Raise e -> at_exit e = e /\ is_transport e = false.
Proof.
  unfold map_today. rewrite copy_fields_dict. cbn [and_then].
  assert (forall x, percentage x = Raise e -> at_exit e = e /\ is_transport e = false)
    as Hp by (by intros x ->%percentage_raises).
  assert (forall x, kg_to_tons x = Raise e -> at_exit e = e /\ is_transport e = false)
    as Hk by (by intros x [-> | ->]%kg_to_tons_raises).
  intros [[x Hx]%convert_field_raises|(b1 & _ & H)]%and_then_raise; [by eapply Hp|].
  apply and_then_raise in H as [[x Hx]%convert_field_raises|(b2 & _ & H)]; [by eapply Hp|].
  rewrite copy_field_dict in H. cbn [and_then] in H.
  apply and_then_raise in H as [[x Hx]%convert_field_raises|(b3 & _ & H)]; [by eapply Hk|].
  by rewrite copy_fields_dict in H.
Qed.

(** ** Counting records *)

Lemma records_app msg t1 t2 :
  records msg (t1 ++ t2) = (records msg t1 + records msg t2)%nat.
Proof. unfold records. by rewrite List.filter_app, length_app. Qed.

Lemma records_none msg t : forallb (not_record msg) t = true -> records msg t = 0%nat.
Proof.
  unfold records, not_record. induction t as [|o t IH]; simpl; [done|].
  intros [Ho Ht]%andb_prop. destruct (is_record msg o); [done|]. by apply IH.
Qed.

Lemma ext_records msg w w' :
  ext (not_record msg) w w' -> records msg (trace w') = records msg (trace w).
Proof.
  intros (_ & _ & _ & _ & _ & t & -> & Ht).
  rewrite records_app, (records_none _ _ Ht). lia.
Qed.

Lemma records_sent msg t bounds r : records msg (t ++ [Sent bounds r]) = records msg t.
Proof. rewrite records_app. unfold records. simpl. lia. Qed.

Lemma records_logged msg t lvl m :
  records msg (t ++ [Logged lvl m])
  = (records msg t + (if String.eqb m msg then 1 else 0))%nat.
Proof. rewrite records_app. unfold records. simpl. by destruct (String.eqb m msg). Qed.

Ltac records_simpl :=
  repeat progress rewrite ?records_logged, ?records_sent in *; simpl.

(** ** The data operations on an answered first request *)

Section Answered.
Context (encrypt_password : string -> string -> string)
        (operation_date today : string).

Local Abbreviation async_login := (async_login encrypt_password).
Local Abbreviation ensure_token := (ensure_token encrypt_password).
Local Abbreviation async_get_device_list :=
  (async_get_device_list encrypt_password).
Local Abbreviation async_get_battery_data :=
  (async_get_battery_data encrypt_password operation_date today).
Local Abbreviation energy_statistics := (energy_statistics operation_date today).
Local Abbreviation todays_stats := (todays_stats operation_date today).

Lemma ensure_token_holding w :
  Py.truthy (token (self w)) = true -> ensure_token w = (Ret true, w).
Proof.
  intros Ht. Transparent Neovolt.ensure_token. unfold Neovolt.ensure_token. unfold_m.
  by rewrite Ht. Opaque Neovolt.ensure_token.
Qed.

(** With a token and a decoded first answer the device list is the
    answer's [data] or nothing, by the code alone. *)
Lemma device_list_on_answer limit w d rest :
  Py.truthy (token (self w)) = true ->
  script w = answers d :: rest ->
  async_get_device_list (S limit) w
  = let w1 := mkWorld (self w) rest (scopes w)
                (trace w ++ [Sent (DEFAULT_TIMEOUT :: scopes w)
                   (GET (devices_url (self w)) [] (token (self w))
                        [("Content-Type", "application/json")])]) in
    if code_is_error (code_of d)
    then (Ret Py.None_,
          observed (Logged ERROR "Failed to get device list with code %s: %s") w1)
    else (Ret (default Py.None_ (d !! "data")), w1).
Proof.
  intros Ht Hs. simpl. unfold bind at 1. rewrite ensure_token_holding by done.
  simpl. unfold _get_auth_headers, code_of, observed, devices_url. unfold_m. simpl.
  rewrite Hs. simpl. by destruct (code_is_error _).
Qed.

End Answered.

Section Power.
Context (encrypt_password : string -> string -> string)
        (operation_date today : string).

Local Abbreviation async_get_battery_data :=
  (async_get_battery_data encrypt_password operation_date today).
Local Abbreviation energy_statistics := (energy_statistics operation_date today).
Local Abbreviation todays_stats := (todays_stats operation_date today).
Local Abbreviation statistics_then_today :=
  (statistics_then_today operation_date today).

(** What is merged is the answer's mapping, and what is raised is neither
    a cancellation nor a transport error. *)
Lemma merge_power_data_spec d :
  match merge_power_data d with
  | Ret bd => bd = power_data d
  | Raise e => at_exit e = e /\ is_transport e = false
  end.
Proof.
  unfold merge_power_data, power_data. simpl.
  destruct (d !! "data") as [x|]; simpl.
  - destruct x as [|b|n|f|s|l|pd]; simpl; try done.
    + by destruct b.
    + by destruct (negb (n =? 0)).
    + by destruct f.
    + destruct (String.eqb s ""); simpl; done.
    + by destruct l.
    + destruct (negb _); simpl; by rewrite (right_id_L ∅ (∪)).
  - rewrite bool_decide_eq_true_2 by (by rewrite map_to_list_empty). simpl.
    by rewrite (right_id_L ∅ (∪)).
Qed.

(** With a token and a decoded first answer: rejected by its code, or the
    power data merged and the two further blocks run under the handler of
    the whole coroutine. *)
Lemma battery_data_on_answer limit station_id w d rest :
  Py.truthy (token (self w)) = true ->
  script w = answers d :: rest ->
  async_get_battery_data (S limit) station_id w
  = let c := self w in
    let w1 := mkWorld c rest (scopes w)
                (trace w ++ [Sent (DEFAULT_TIMEOUT :: scopes w)
                               (power_request operation_date c station_id)]) in
    if code_is_error (code_of d)
    then (Ret Py.None_,
          observed (Logged ERROR "Failed to get battery power data with code %s: %s") w1)
    else match merge_power_data d with
         | Raise e => (Raise e, w1)
         | Ret bd =>
             try_except
               (statistics_then_today c station_id
                  (token c, [("Content-Type", "application/json")]) bd)
               (do! log ERROR "Error fetching battery data: %s" in ret Py.None_) w1
         end.
Proof.
  intros Ht Hs. simpl. unfold bind at 1.
  rewrite (ensure_token_holding encrypt_password) by done. simpl. clear Ht.
  pose proof (merge_power_data_spec d) as Hm. revert Hm.
  unfold _get_auth_headers, code_of, observed, power_request, power_url,
    merge_power_data, Neovolt.statistics_then_today.
  unfold_m. simpl. rewrite Hs. simpl.
  destruct (code_is_error _); [done|]. simpl.
  set (pd := default (Py.Dict ∅) (d !! "data")).
  destruct (Py.truthy pd); simpl.
  - destruct (Py.keys pd) as [ks|e]; simpl; [|by intros [-> ->]].
    destruct (Py.update _ _) as [bd|e]; simpl; [done|by intros [-> ->]].
  - destruct (Py.update _ _) as [bd|e]; simpl; [done|by intros [-> ->]].
Qed.

End Power.

(** ** The two further blocks on an answered request *)

Lemma fold_raise {A F} (step : outcome A -> F -> outcome A) fields e :
  (forall f, step (Raise e) f = Raise e) ->
  fold_left step fields (Raise e) = Raise e.
Proof. intros Hs. induction fields as [|f fields IH]; simpl; [done|]. by rewrite Hs. Qed.

Lemma copy_fields_cons data f fields bd :
  copy_fields data (f :: fields) bd
  = and_then (copy_field data bd f) (copy_fields data fields).
Proof.
  unfold copy_fields. simpl. destruct (copy_field data bd f) as [bd1|e]; simpl; [done|].
  by apply fold_raise.
Qed.

(** Copying writes the targets of the listed fields and nothing else. *)
Lemma copy_fields_others data fields bd bd' k :
  copy_fields data fields bd = Ret bd' ->
  ~ In k (map fst fields) -> bd' !! k = bd !! k.
Proof.
  revert bd. induction fields as [|f fields IH]; intros bd.
  - by intros [= <-].
  - rewrite copy_fields_cons. intros (bd1 & H1 & H2)%and_then_ret Hk.
    simpl in Hk. rewrite (IH _ H2) by tauto.
    unfold copy_field in H1. apply and_then_ret in H1 as (v & _ & [= <-]).
    rewrite lookup_insert_ne; [done|]. intros Heq. apply Hk. by left.
Qed.

Lemma truthy_dict_nonempty (d : gmap string Py.val) :
  d <> ∅ -> Py.truthy (Py.Dict d) = true.
Proof.
  intros Hd. simpl. rewrite bool_decide_eq_false_2; [done|].
  by intros ?%map_to_list_empty_iff.
Qed.

Section Blocks.
Context (operation_date today : string).

Local Abbreviation energy_statistics := (energy_statistics operation_date today).
Local Abbreviation todays_stats := (todays_stats operation_date today).

Transparent Neovolt.energy_statistics Neovolt.todays_stats.

(** A statistics request that is answered at all takes one event, never
    ends the coroutine early, and writes the statistics keys only. *)
Lemma energy_statistics_on_response c station_id headers bd w r rest :
  script w = Responds r :: rest ->
  script (snd (energy_statistics c station_id headers bd w)) = rest
  /\ (forall x, fst (energy_statistics c station_id headers bd w) <> Ret (inl x))
  /\ (forall bd', fst (energy_statistics c station_id headers bd w) = Ret (inr bd') ->
      forall k, ~ In k (map fst STATISTICS_FIELDS) -> bd' !! k = bd !! k).
Proof.
  intros Hs. unfold Neovolt.energy_statistics. unfold_m. simpl. rewrite Hs. simpl.
  destruct r as [st j]. simpl.
  destruct (st =? 200); simpl; [|by repeat split; intros; simplify_eq].
  destruct j as [a|e]; simpl; [|by repeat split; intros; simplify_eq].
  destruct (Py.get a "code") as [code|e]; simpl; [|by repeat split; intros; simplify_eq].
  destruct (Py.eq_int code 200 || Py.eq_int code 0); simpl;
    [|by repeat split; intros; simplify_eq].
  destruct (Py.get_or_empty a "data") as [sd|e]; simpl;
    [|by repeat split; intros; simplify_eq].
  destruct (Py.truthy sd); simpl; [|by repeat split; intros; simplify_eq].
  destruct (Py.keys sd) as [ks|e]; simpl; [|by repeat split; intros; simplify_eq].
  destruct (copy_fields sd STATISTICS_FIELDS bd) as [bd1|e] eqn:Hc; simpl;
    [|by repeat split; intros; simplify_eq].
  split; [done|]. split; [done|]. intros bd' [= <-] k Hk.
  by apply (copy_fields_others _ _ _ _ _ Hc).
Qed.

Lemma energy_statistics_judged c station_id headers bd w d rest :
  script w = answers d :: rest ->
  judged EnergyStatistics d w (snd (energy_statistics c station_id headers bd w)).
Proof.
  intros Hs. unfold judged, accepts, lenient, code_of, Neovolt.energy_statistics.
  unfold_m. simpl. rewrite Hs. simpl.
  rewrite (orb_comm (Py.eq_int _ 200)).
  destruct (Py.eq_int _ 0 || Py.eq_int _ 200); simpl; [|records_simpl; lia].
  destruct (Py.truthy _); simpl; [|records_simpl; lia].
  destruct (Py.keys _); simpl; [|records_simpl; lia].
  destruct (copy_fields _ _ _); simpl; records_simpl; lia.
Qed.

(** Today's summary with an accepted code and a non-empty payload is the
    field mapping of lines 367-393. *)
Lemma todays_stats_on_answer c station_id headers bd w d td rest :
  script w = answers d :: rest ->
  strict (code_of d) = true -> d !! "data" = Some (Py.Dict td) -> td <> ∅ ->
  fst (todays_stats c station_id headers bd w) = map_today (Py.Dict td) bd.
Proof.
  intros Hs Hc Hd Ht. unfold strict, code_of, Neovolt.todays_stats in *.
  unfold_m. simpl. rewrite Hs. simpl. rewrite Hc, Hd. simpl.
  pose proof (truthy_dict_nonempty _ Ht) as Htr. simpl in Htr. rewrite Htr.
  destruct (map_today _ _) as [rec|e] eqn:Hm; simpl; [done|].
  by destruct (map_today_raises _ _ _ Hm) as [-> _].
Qed.

Lemma todays_stats_judged c station_id headers bd w d rest :
  script w = answers d :: rest ->
  judged TodaySummary d w (snd (todays_stats c station_id headers bd w))
  /\ (strict (code_of d) = false ->
      fst (todays_stats c station_id headers bd w) = Ret bd).
Proof.
  intros Hs. unfold judged, accepts, strict, code_of, Neovolt.todays_stats.
  unfold_m. simpl. rewrite Hs. simpl.
  destruct (Py.eq_int _ 200); simpl; [|split; [records_simpl; lia|done]].
  split; [|done].
  repeat (match goal with
          | |- context [if ?b then _ else _] => destruct b
          | |- context [match ?o with Ret _ => _ | Raise _ => _ end] => destruct o
          end; simpl);
    records_simpl; lia.
Qed.

Opaque Neovolt.energy_statistics Neovolt.todays_stats.

End Blocks.

(** ** The record of a call that got all three answers *)

Section Record.
Context (encrypt_password : string -> string -> string)
        (operation_date today : string).

Local Abbreviation async_get_battery_data :=
  (async_get_battery_data encrypt_password operation_date today).
Local Abbreviation energy_statistics := (energy_statistics operation_date today).
Local Abbreviation todays_stats := (todays_stats operation_date today).

(** The returned record is today's mapping applied to a record that, but
    for the statistics keys, is the power data. *)
Lemma battery_data_today limit station_id w d1 r2 d3 td rest rec :
  Py.truthy (token (self w)) = true ->
  script w = answers d1 :: Responds r2 :: answers d3 :: rest ->
  strict (code_of d3) = true -> d3 !! "data" = Some (Py.Dict td) -> td <> ∅ ->
  fst (async_get_battery_data (S limit) station_id w) = Ret (Py.Dict rec) ->
  exists bd,
    map_today (Py.Dict td) bd = Ret rec
    /\ forall k, ~ In k (map fst STATISTICS_FIELDS) -> bd !! k = power_data d1 !! k.
Proof.
  intros Ht Hs Hc Hd Hne.
  rewrite (battery_data_on_answer _ _ _ _ _ _ _ _ Ht Hs). cbv zeta.
  destruct (code_is_error (code_of d1)); [done|].
  pose proof (merge_power_data_spec d1) as Hm.
  destruct (merge_power_data d1) as [bd|e]; [subst bd|done].
  unfold try_except, statistics_then_today, bind.
  match goal with |- context [energy_statistics ?c ?sid ?h ?b ?w1] =>
    destruct (energy_statistics_on_response operation_date today c sid h b w1 r2
                (answers d3 :: rest) eq_refl) as (Hs2 & Hinl & Hinr);
    destruct (energy_statistics c sid h b w1) as [[[x|bd2]|e] w2]; simpl in *
  end.
  - by destruct (Hinl x).
  - specialize (Hinr bd2 eq_refl).
    match goal with |- context [todays_stats ?c ?sid ?h ?b ?w] =>
      pose proof (todays_stats_on_answer operation_date today c sid h b w d3 td rest
                    Hs2 Hc Hd Hne) as Hm2;
      destruct (todays_stats c sid h b w) as [[y|e] w3]; simpl in *
    end.
    + intros [= <-]. by exists bd2.
    + by destruct (is_transport e).
  - by destruct (is_transport e).
Qed.

End Record.

Section RecordClaims.
Context (encrypt_password : string -> string -> string)
        (operation_date today : string).

Local Abbreviation async_get_battery_data :=
  (async_get_battery_data encrypt_password operation_date today).

(** C10 (amended). A call that holds a token and is answered three times, the third
    answer accepted with a non-empty payload [td], returns a record [rec] in
    which every key that today's summary copies is present, with the value
    of its source field or [None] when [td] lacks the field; a computed key
    whose source field is missing or null is not written by today's
    summary: the record holds under it what the power data held, and
    nothing when the power data has no key of that name. *)
Theorem today_keys_present_or_left_out
    limit station_id w d1 r2 d3 td rest rec :
  Py.truthy (token (self w)) = true ->
  script w = answers d1 :: Responds r2 :: answers d3 :: rest ->
  strict (code_of d3) = true -> d3 !! "data" = Some (Py.Dict td) -> td <> ∅ ->
  fst (async_get_battery_data (S limit) station_id w) = Ret (Py.Dict rec) ->
  (forall target source, In (target, source) TODAY_COPIED_FIELDS ->
     rec !! target = Some (default Py.None_ (td !! source)))
  /\ (forall target source f, In (target, source, f) TODAY_CONVERTED_FIELDS ->
        default Py.None_ (td !! source) = Py.None_ ->
        rec !! target = power_data d1 !! target
        /\ (power_data d1 !! target = None -> rec !! target = None)).
Proof.
  intros Ht Hs Hc Hd Hne Hr.
  destruct (battery_data_today _ _ _ _ _ _ _ _ _ _ _ _ Ht Hs Hc Hd Hne Hr)
    as (bd & [Hcopy Hconv]%map_today_spec & Hbd).
  split; [exact Hcopy|].
  intros target source f Hin Hnone.
  assert (rec !! target = power_data d1 !! target) as Heq.
  { specialize (Hconv target source f Hin).
    rewrite <- Hbd.
    - destruct (td !! source) as [[]|]; simpl in Hnone; done.
    - simpl in Hin. clear -Hin.
      repeat (destruct Hin as [[= <- _ _]|Hin]); [..|done];
        simpl; intros H; repeat (destruct H as [H|H]; [discriminate H|]); done. }
  split; [exact Heq|]. intros Hp. by rewrite Heq.
Qed.


End RecordClaims.

(** ** Which codes are accepted *)

Lemma code_is_error_lenient code : code_is_error code = negb (lenient code).
Proof. unfold code_is_error, lenient. by rewrite negb_orb. Qed.

Transparent store_token.

Lemma store_token_silent msg result missing :
  not_record msg (Logged ERROR missing) = true ->
  keeps (ext (not_record msg)) (store_token result missing).
Proof. intros Hm. unfold store_token. keep. Qed.

Opaque store_token.

Transparent _async_login_fallback.

Lemma fallback_silent :
  keeps (ext (not_record (rejection Login))) _async_login_fallback.
Proof.
  unfold _async_login_fallback.
  pose proof (fun r => store_token_silent (rejection Login) r
                "No token found in fallback login response" eq_refl) as Hst.
  keep.
Qed.

Lemma fallback_judged w d rest :
  script w = answers d :: rest ->
  judged FallbackLogin d w (snd (_async_login_fallback w)).
Proof.
  intros Hs. unfold judged, accepts, _async_login_fallback, code_of.
  rewrite <- (negb_involutive (lenient _)), <- code_is_error_lenient.
  unfold_m. simpl. rewrite Hs. simpl.
  destruct (code_is_error _); simpl; [records_simpl; lia|].
  match goal with |- context [store_token ?r ?m ?w1] =>
    pose proof (store_token_silent (rejection FallbackLogin) r m eq_refl w1) as Hf;
    apply ext_records in Hf;
    destruct (store_token r m w1) as [[b|e] w2]; simpl in *
  end.
  - rewrite Hf. records_simpl. lia.
  - handled; simpl; rewrite ?records_logged, Hf; records_simpl; lia.
Qed.

Opaque _async_login_fallback.

Section Judged.
Context (encrypt_password : string -> string -> string)
        (operation_date today : string).

Local Abbreviation async_login := (async_login encrypt_password).
Local Abbreviation async_get_device_list :=
  (async_get_device_list encrypt_password).
Local Abbreviation async_get_battery_data :=
  (async_get_battery_data encrypt_password operation_date today).
Local Abbreviation energy_statistics := (energy_statistics operation_date today).
Local Abbreviation todays_stats := (todays_stats operation_date today).

Transparent Neovolt.async_login.

Lemma login_judged w d rest :
  script w = answers d :: rest ->
  judged Login d w (snd (async_login w)).
Proof.
  intros Hs. unfold judged, accepts, Neovolt.async_login, code_of.
  rewrite <- (negb_involutive (lenient _)), <- code_is_error_lenient.
  pose proof (fun w1 => ext_records _ _ _ (fallback_silent w1)) as Hfb.
  unfold_m. simpl. rewrite Hs. simpl.
  destruct (code_is_error _); simpl.
  - match goal with |- context [_async_login_fallback ?w1] =>
      specialize (Hfb w1) as Hf;
      destruct (_async_login_fallback w1) as [[b|e] w2]; simpl in *
    end.
    + rewrite Hf. records_simpl. lia.
    + handled; simpl.
      * rewrite Hfb. simpl. rewrite ?records_logged, Hf. records_simpl. lia.
      * rewrite Hf. records_simpl. lia.
  - match goal with |- context [store_token ?r ?m ?w1] =>
      pose proof (store_token_silent (rejection Login) r m eq_refl w1) as Hf;
      apply ext_records in Hf;
      destruct (store_token r m w1) as [[b|e] w2]; simpl in *
    end.
    + rewrite Hf. records_simpl. lia.
    + handled; simpl.
      * rewrite Hfb. simpl. rewrite ?records_logged, Hf. records_simpl. lia.
      * rewrite Hf. records_simpl. lia.
Qed.

Opaque Neovolt.async_login.

Lemma device_list_judged limit w d rest :
  Py.truthy (token (self w)) = true ->
  script w = answers d :: rest ->
  judged DeviceList d w (snd (async_get_device_list (S limit) w))
  /\ fst (async_get_device_list (S limit) w)
     = Ret (if accepts DeviceList (code_of d) then default Py.None_ (d !! "data")
            else Py.None_).
Proof.
  intros Ht Hs. rewrite (device_list_on_answer _ _ _ _ _ Ht Hs).
  unfold judged, accepts, observed. unfold_m.
  rewrite code_is_error_lenient. cbv zeta.
  destruct (lenient _); simpl; (split; [records_simpl; lia|done]).
Qed.

Lemma statistics_then_today_silent c station_id headers bd :
  keeps (ext (not_record (rejection PowerData)))
    (try_except
       (statistics_then_today operation_date today c station_id headers bd)
       (do! log ERROR "Error fetching battery data: %s" in ret Py.None_)).
Proof.
  unfold statistics_then_today.
  Transparent Neovolt.energy_statistics Neovolt.todays_stats.
  unfold Neovolt.energy_statistics, Neovolt.todays_stats. keep.
  Opaque Neovolt.energy_statistics Neovolt.todays_stats.
Qed.

Lemma battery_data_judged limit station_id w d rest :
  Py.truthy (token (self w)) = true ->
  script w = answers d :: rest ->
  judged PowerData d w (snd (async_get_battery_data (S limit) station_id w)).
Proof.
  intros Ht Hs. rewrite (battery_data_on_answer _ _ _ _ _ _ _ _ Ht Hs).
  unfold judged, accepts, observed, observe.
  rewrite code_is_error_lenient. cbv zeta.
  destruct (lenient _); cbn [negb]; [|simpl; records_simpl; lia].
  destruct (merge_power_data d) as [bd|e]; [|simpl; records_simpl; lia].
  match goal with |- context [try_except ?b ?h ?w1] =>
    pose proof (statistics_then_today_silent (self w) station_id
      (token (self w), [("Content-Type", "application/json")]) bd w1) as Hf;
    apply ext_records in Hf
  end.
  rewrite Hf. simpl. records_simpl. lia.
Qed.

End Judged.

Section CodeClaims.
Context (encrypt_password : string -> string -> string)
        (operation_date today : string).

Local Abbreviation async_login := (async_login encrypt_password).
Local Abbreviation async_get_device_list :=
  (async_get_device_list encrypt_password).
Local Abbreviation async_get_battery_data :=
  (async_get_battery_data encrypt_password operation_date today).
Local Abbreviation energy_statistics := (energy_statistics operation_date today).
Local Abbreviation todays_stats := (todays_stats operation_date today).

(** C6. For every response with status 200 and a body [d] that decodes to
    a mapping, at each of the six places where a vendor code is read: the
    place writes its rejection record exactly when the code fails its test,
    and the test is "0 or 200" for the login (primary and fallback), the
    device list, the power data and the energy statistics, "200" for
    today's summary. The device list returns the body's [data] or nothing
    accordingly, and today's summary leaves the record as it was when the
    code is 0. *)
Theorem vendor_code_acceptance limit station_id c headers acc w d rest :
  script w = answers d :: rest ->
  judged Login d w (snd (async_login w))
  /\ judged FallbackLogin d w (snd (_async_login_fallback w))
  /\ (Py.truthy (token (self w)) = true ->
      judged DeviceList d w (snd (async_get_device_list (S limit) w))
      /\ fst (async_get_device_list (S limit) w)
         = Ret (if accepts DeviceList (code_of d)
                then default Py.None_ (d !! "data") else Py.None_)
      /\ judged PowerData d w (snd (async_get_battery_data (S limit) station_id w)))
  /\ judged EnergyStatistics d w (snd (energy_statistics c station_id headers acc w))
  /\ judged TodaySummary d w (snd (todays_stats c station_id headers acc w))
  /\ (code_of d = Py.Int 0 ->
      fst (todays_stats c station_id headers acc w) = Ret acc).
Proof.
  intros Hs.
  split; [by eapply login_judged|].
  split; [by eapply fallback_judged|].
  split.
  { intros Ht.
    destruct (device_list_judged encrypt_password limit w d rest Ht Hs) as [H1 H2].
    split; [exact H1|]. split; [exact H2|]. by eapply battery_data_judged. }
  split; [by eapply energy_statistics_judged|].
  destruct (todays_stats_judged operation_date today c station_id headers acc w d rest Hs)
    as [H1 H2].
  split; [exact H1|]. intros Hc. apply H2. by rewrite Hc.
Qed.

Transparent Neovolt.energy_statistics.

(** C2 (what the code does). With the power data accepted, a second
    response of status 200 whose body cannot be read ([json()] raises [e])
    ends the whole call: with nothing returned when what leaves the
    timeout block is a transport error (the body is not declared as JSON,
    or the block's own deadline passed while the body was read), with the
    exception itself otherwise (the body is not JSON). The power data is
    lost either way. *)
Theorem unreadable_statistics_lose_power_data limit station_id w d1 bd e rest :
  Py.truthy (token (self w)) = true ->
  script w = answers d1 :: Responds (mkResponse 200 (Raise e)) :: rest ->
  code_is_error (code_of d1) = false ->
  merge_power_data d1 = Ret bd ->
  fst (async_get_battery_data (S limit) station_id w)
  = if is_transport (at_exit e) then Ret Py.None_ else Raise (at_exit e).
Proof.
  intros Ht Hs Hc Hm. rewrite (battery_data_on_answer _ _ _ _ _ _ _ _ Ht Hs).
  cbv zeta. rewrite Hc, Hm.
  unfold statistics_then_today, Neovolt.energy_statistics. unfold_m. simpl.
  by destruct (is_transport (at_exit e)).
Qed.

Opaque Neovolt.energy_statistics.

End CodeClaims.

(** ** Closed runs *)



(** C3, counterexample. A success response whose [data] is a number holds
    a token in neither place, yet the login does not return [False]: the
    test ["token" in result["data"]] raises [TypeError]. *)
Lemma numeric_data_raises_in_login :
  fst (login (start Py.None_ [ok [("code", Py.Int 200); ("data", Py.Int 1)]]))
  = Raise TypeError.
Proof. vm_compute. reflexivity. Qed.

Lemma token_extraction_order_witness :
  let d : gmap string Py.val :=
    list_to_map [("code", Py.Int 200); ("token", Py.Str "abc")] in
  let w := start Py.None_ [answers d] in
  code_is_error (code_of d) = false
  /\ extracts login w d /\ extracts _async_login_fallback w d.
Proof.
  intros d w. split; [reflexivity|].
  apply (token_extraction_order sample_encrypt w d []); reflexivity.
Defined.




Lemma failed_login_keeps_token_witness :
  let w := start (Py.Str "stale") [status_only 500; status_only 503] in
  fst (login w) <> Ret true
  /\ token (self (snd (login w))) = Py.Str "stale".
Proof.
  intros w.
  assert (fst (login w) <> Ret true) as H by (vm_compute; discriminate).
  split; [exact H|]. exact (failed_login_keeps_token sample_encrypt w H).
Defined.

(** C10, counterexample. The power data holds a key named
    [Self_Consumption]; today's summary is accepted with a non-empty payload
    that has no [eselfConsumption]. The computed key is not written, but it
    is not omitted from the record either: it holds the power data's
    value. *)
Lemma computed_key_of_power_data_stays :
  let d1 := [("code", Py.Int 200);
             ("data", body [("Self_Consumption", Py.Int 5)])] in
  let d3 := [("code", Py.Int 200); ("data", body [("epvtoday", Py.Int 1)])] in
  let w := start (Py.Str "t") [ok d1; status_only 500; ok d3] in
  let rec := record_of (fst (get_battery_data w)) in
  fst (get_battery_data w) = Ret (Py.Dict rec)
  /\ rec !! "PV_Generated_Today" = Some (Py.Int 1)
  /\ rec !! "Self_Consumption" = Some (Py.Int 5).
Proof. vm_compute. repeat split. Qed.

(** C9, counterexample. A first login stores the token ["t1"]; a second
    login is answered with a success code and a null [token]: it returns
    [True] and the token field is back to [None]. *)
Lemma null_token_resets_session :
  let w1 := snd (login (start Py.None_
                         [ ok [("code", Py.Int 200); ("token", Py.Str "t1")];
                           ok [("code", Py.Int 200); ("token", Py.None_)] ])) in
  token (self w1) = Py.Str "t1"
  /\ fst (login w1) = Ret true
  /\ token (self (snd (login w1))) = Py.None_.
Proof. vm_compute. repeat split. Qed.

Lemma vendor_code_acceptance_witness :
  let d : gmap string Py.val := list_to_map [("code", Py.Int 0)] in
  let w := start (Py.Str "t") [answers d] in
  let headers := (Py.Str "t", [("Content-Type", "application/json")]) in
  judged Login d w (snd (login w))
  /\ judged EnergyStatistics d w
       (snd (energy_statistics sample_operation_date sample_today (self w) None
               headers ∅ w))
  /\ judged TodaySummary d w
       (snd (todays_stats sample_operation_date sample_today (self w) None
               headers ∅ w))
  /\ fst (todays_stats sample_operation_date sample_today (self w) None headers ∅ w)
     = Ret ∅.
Proof.
  intros d w headers.
  destruct (vendor_code_acceptance sample_encrypt sample_operation_date sample_today
              0%nat None (self w) headers ∅ w d [] eq_refl)
    as (H1 & _ & _ & H4 & H5 & H6).
  split; [exact H1|]. split; [exact H4|]. split; [exact H5|].
  apply H6. reflexivity.
Defined.

Lemma unreadable_statistics_lose_power_data_witness :
  let d1 : gmap string Py.val :=
    list_to_map [("code", Py.Int 200);
                 ("data", Py.Dict (list_to_map [("soc", Py.Int 80)]))] in
  let w := start (Py.Str "t")
             [answers d1; Responds (mkResponse 200 (Raise ClientError))] in
  merge_power_data d1 = Ret (list_to_map [("soc", Py.Int 80)])
  /\ fst (get_battery_data w) = Ret Py.None_.
Proof.
  intros d1 w.
  assert (merge_power_data d1 = Ret (list_to_map [("soc", Py.Int 80)])) as Hm
    by (vm_compute; reflexivity).
  split; [exact Hm|].
  exact (unreadable_statistics_lose_power_data sample_encrypt sample_operation_date
           sample_today 99 None w d1 _ ClientError [] eq_refl eq_refl eq_refl Hm).
Defined.

Lemma today_keys_present_or_left_out_witness :
  let td : gmap string Py.val := list_to_map [("epvtoday", Py.Int 5)] in
  let d1 : gmap string Py.val :=
    list_to_map [("code", Py.Int 200);
                 ("data", Py.Dict (list_to_map [("soc", Py.Int 80)]))] in
  let d3 : gmap string Py.val :=
    list_to_map [("code", Py.Int 200); ("data", Py.Dict td)] in
  let w := start (Py.Str "t") [answers d1; status_only 500; answers d3] in
  let rec := record_of (fst (get_battery_data w)) in
  fst (get_battery_data w) = Ret (Py.Dict rec)
  /\ rec !! "PV_Generated_Today" = Some (Py.Int 5)
  /\ rec !! "Today_Income" = Some Py.None_
  /\ rec !! "Self_Consumption" = None.
Proof.
  intros td d1 d3 w rec.
  assert (fst (get_battery_data w) = Ret (Py.Dict rec)) as Hr
    by (vm_compute; reflexivity).
  assert (td <> ∅) as Hne.
  { intros H. apply (f_equal (fun m : gmap string Py.val => m !! "epvtoday")) in H.
    vm_compute in H. discriminate H. }
  destruct (today_keys_present_or_left_out sample_encrypt sample_operation_date
              sample_today 99 None w d1 (mkResponse 500 (Raise ClientError)) d3 td []
              rec eq_refl eq_refl eq_refl eq_refl Hne Hr) as [Hcopy Hconv].
  split; [exact Hr|].
  split; [exact (Hcopy "PV_Generated_Today" "epvtoday" (or_introl eq_refl))|].
  split.
  - apply (Hcopy "Today_Income" "todayIncome"). vm_compute. tauto.
  - apply (Hconv "Self_Consumption" "eselfConsumption" percentage);
      [by left|reflexivity|reflexivity].
Defined.


(** The reference values are what the model's arithmetic gives. *)
Example round_of_exact_tie_below :
  Py.round2 (Py.Float f_2_675) = Ret (Py.Float f_2_67).
Proof. vm_compute. reflexivity. Qed.

Example percentage_of_0_85 : percentage (Py.Float f_0_85) = Ret (Py.Float f_85_0).
Proof. vm_compute. reflexivity. Qed.

Example truediv_of_1234 : Py.truediv_int (Py.Int 1234) 1000 = Ret (Py.Float f_1_234).
Proof. vm_compute. reflexivity. Qed.

(** * Further properties of the client *)

Opaque store_token _async_login_fallback Neovolt.async_login Neovolt.ensure_token
  Neovolt.energy_statistics Neovolt.todays_stats.

(** ** What a login sends, in every case *)

(** Every fallback and every handler in the goal, case by case, with what
    each fallback sent. *)
Ltac all_fallbacks :=
  repeat first
    [ match goal with
      | |- context [_async_login_fallback ?w1] =>
          let Hs := fresh "Hs" in
          let Hq := fresh "Hq" in
          pose proof (fallback_sends w1) as Hs;
          pose proof (ext_fallback_request _ _ _ (fallback_frame w1)) as Hq;
          destruct (_async_login_fallback w1) as [[? | ?] ?]; simpl in *
      end
    | match goal with
      | |- context [is_transport ?x] => destruct (is_transport x); simpl in *
      end ].

Ltac requests_counted :=
  rewrite ?sends_app; simpl;
  repeat (match goal with
          | H : sends (trace _) = _ |- _ => rewrite H; clear H
          | H : fallback_request (self _) = _ |- _ => rewrite H; clear H
          end; rewrite ?sends_app; simpl);
  unfold primary_request, fallback_request;
  rewrite ?app_nil_r, <- ?app_assoc; simpl; reflexivity.

Ltac up_to_three :=
  all_fallbacks;
  eexists; (split; [requests_counted|]);
  first [ by left
        | right; left; by eexists
        | right; right; by eexists _, _ ].

Section LoginRequests.
Context (encrypt_password : string -> string -> string).

Local Abbreviation async_login := (async_login encrypt_password).

Transparent Neovolt.async_login.

Lemma login_requests w :
  exists more,
    sends (trace (snd (async_login w)))
    = sends (trace w)
      ++ (DEFAULT_TIMEOUT :: scopes w, primary_request encrypt_password (self w)) :: more
    /\ (more = []
        \/ (exists bounds,
              more = [(DEFAULT_TIMEOUT :: bounds, fallback_request (self w))])
        \/ (exists bounds bounds',
              more = [ (DEFAULT_TIMEOUT :: bounds, fallback_request (self w));
                       (DEFAULT_TIMEOUT :: bounds', fallback_request (self w)) ])).
Proof.
  destruct w as [c s sc tr].
  unfold Neovolt.async_login. unfold_m.
  destruct s as [|[[st j]|e] rest]; simpl.
  - up_to_three.
  - destruct (st =? 200); simpl; [|up_to_three].
    destruct j as [result|e]; simpl; [|up_to_three].
    destruct (Py.get result "code") as [code|e]; simpl; [|up_to_three].
    destruct (code_is_error code); simpl; [up_to_three|].
    match goal with |- context [store_token ?r ?m ?w1] =>
      pose proof (store_token_logs r m w1) as Hl;
      pose proof (store_token_frame r m w1) as Hf;
      apply ext_logged_sends in Hl;
      apply ext_fallback_request in Hf;
      destruct (store_token r m w1) as [[b|e] w'] end; simpl in *; up_to_three.
  - up_to_three.
Qed.

Opaque Neovolt.async_login.

(** X1. Whatever the vendor does, [async_login] sends the primary request
    first and after it nothing, one fallback request or two: never a
    fourth request, never anything but a [POST] to the login endpoint,
    each under a timeout of [DEFAULT_TIMEOUT]. *)
Theorem login_sends_at_most_three w :
  exists more,
    sends (trace (snd (async_login w)))
    = sends (trace w)
      ++ (DEFAULT_TIMEOUT :: scopes w, primary_request encrypt_password (self w)) :: more
    /\ (more = []
        \/ (exists bounds,
              more = [(DEFAULT_TIMEOUT :: bounds, fallback_request (self w))])
        \/ (exists bounds bounds',
              more = [ (DEFAULT_TIMEOUT :: bounds, fallback_request (self w));
                       (DEFAULT_TIMEOUT :: bounds', fallback_request (self w)) ])).
Proof. apply login_requests. Qed.

End LoginRequests.

(** ** A client without a token *)

Section NoToken.
Context (encrypt_password : string -> string -> string)
        (operation_date today : string).

Local Abbreviation async_login := (async_login encrypt_password).
Local Abbreviation ensure_token := (ensure_token encrypt_password).
Local Abbreviation async_get_device_list :=
  (async_get_device_list encrypt_password).
Local Abbreviation async_get_battery_data :=
  (async_get_battery_data encrypt_password operation_date today).

Lemma ensure_token_missing w :
  Py.truthy (token (self w)) = false -> ensure_token w = async_login w.
Proof.
  intros Ht. Transparent Neovolt.ensure_token. unfold Neovolt.ensure_token. unfold_m.
  by rewrite Ht. Opaque Neovolt.ensure_token.
Qed.

(** X2. A data operation that finds no token and whose login returns
    [False] returns nothing and does nothing more: the session is left as
    the login left it, so no data request goes out. *)
Theorem no_token_no_data_request limit station_id w :
  Py.truthy (token (self w)) = false ->
  fst (async_login w) = Ret false ->
  async_get_device_list (S limit) w = (Ret Py.None_, snd (async_login w))
  /\ async_get_battery_data (S limit) station_id w
     = (Ret Py.None_, snd (async_login w)).
Proof.
  intros Ht Hl.
  split; simpl; unfold bind at 1; rewrite (ensure_token_missing w Ht);
    destruct (async_login w) as [o w1]; simpl in Hl; subst o; reflexivity.
Qed.

(** The rest of a data operation only adds to the trace of its first
    step, the check for a token. *)
Lemma device_list_after_ensure limit w :
  exists t,
    trace (snd (async_get_device_list (S limit) w))
    = trace (snd (ensure_token w)) ++ t.
Proof.
  simpl. unfold bind at 1.
  destruct (ensure_token w) as [[b|e] w1]; simpl; [|exists []; by rewrite app_nil_r].
  match goal with |- context [(if negb b then ?m1 else ?m2) w1] =>
    assert (keeps (ext_tok any_obs) (if negb b then m1 else m2)) as Hk
  end.
  { pose proof (device_list_keeps encrypt_password limit).
    pose proof (login_keeps_any encrypt_password).
    unfold _get_auth_headers. keep. }
  destruct (Hk w1) as [(_ & _ & _ & _ & _ & t & Ht & _) _]. by exists t.
Qed.

Lemma battery_data_after_ensure limit station_id w :
  exists t,
    trace (snd (async_get_battery_data (S limit) station_id w))
    = trace (snd (ensure_token w)) ++ t.
Proof.
  simpl. unfold bind at 1.
  destruct (ensure_token w) as [[b|e] w1]; simpl; [|exists []; by rewrite app_nil_r].
  match goal with |- context [(if negb b then ?m1 else ?m2) w1] =>
    assert (keeps (ext_tok any_obs) (if negb b then m1 else m2)) as Hk
  end.
  { pose proof (battery_data_keeps encrypt_password operation_date today limit station_id).
    pose proof (login_keeps_any encrypt_password).
    pose proof (energy_statistics_keeps operation_date today).
    pose proof (todays_stats_keeps operation_date today).
    unfold _get_auth_headers. keep. }
  destruct (Hk w1) as [(_ & _ & _ & _ & _ & t & Ht & _) _]. by exists t.
Qed.

(** X3. A client whose token is falsy ([None] as [__init__] leaves it, or
    an empty string taken from a response) logs in before anything else:
    whatever the vendor does, the first request of either data operation
    is the primary login, under a timeout of [DEFAULT_TIMEOUT]. *)
Theorem no_token_logs_in_first limit station_id w :
  Py.truthy (token (self w)) = false ->
  (exists more,
     sends (trace (snd (async_get_device_list (S limit) w)))
     = sends (trace w)
       ++ (DEFAULT_TIMEOUT :: scopes w, primary_request encrypt_password (self w))
          :: more)
  /\ (exists more,
        sends (trace (snd (async_get_battery_data (S limit) station_id w)))
        = sends (trace w)
          ++ (DEFAULT_TIMEOUT :: scopes w, primary_request encrypt_password (self w))
             :: more).
Proof.
  intros Hf.
  destruct (login_requests encrypt_password w) as (more & Hl & _).
  split.
  - destruct (device_list_after_ensure limit w) as [t Ht].
    rewrite Ht, ensure_token_missing, sends_app, Hl by done.
    exists (more ++ sends t). by rewrite <- app_assoc.
  - destruct (battery_data_after_ensure limit station_id w) as [t Ht].
    rewrite Ht, ensure_token_missing, sends_app, Hl by done.
    exists (more ++ sends t). by rewrite <- app_assoc.
Qed.

End NoToken.

(** ** Failures the two further blocks absorb *)

Section Tolerated.
Context (encrypt_password : string -> string -> string)
        (operation_date today : string).

Local Abbreviation async_get_battery_data :=
  (async_get_battery_data encrypt_password operation_date today).
Local Abbreviation energy_statistics := (energy_statistics operation_date today).
Local Abbreviation todays_stats := (todays_stats operation_date today).

Transparent Neovolt.energy_statistics Neovolt.todays_stats.

Lemma energy_statistics_tolerated c station_id headers bd w ev rest :
  script w = ev :: rest ->
  tolerated lenient ev = true ->
  fst (energy_statistics c station_id headers bd w)
  = Ret (if is_raised ev then inl bd else inr bd)
  /\ script (snd (energy_statistics c station_id headers bd w)) = rest.
Proof.
  intros Hs. unfold tolerated, lenient, code_of, Neovolt.energy_statistics.
  unfold_m. simpl. rewrite Hs.
  destruct ev as [[st j]|e]; simpl.
  - destruct (st =? 200); simpl; [|done].
    destruct j as [[| | | | | |d]|e]; simpl; try done.
    rewrite (orb_comm (Py.eq_int _ 200)).
    by intros ->%negb_true_iff.
  - by intros ->.
Qed.

Lemma todays_stats_tolerated c station_id headers bd w :
  match script w with
  | [] => True
  | ev :: _ => tolerated strict ev = true
  end ->
  fst (todays_stats c station_id headers bd w) = Ret bd
  /\ script (snd (todays_stats c station_id headers bd w)) = tail (script w).
Proof.
  unfold tolerated, strict, code_of, Neovolt.todays_stats. unfold_m. simpl.
  destruct (script w) as [|[[st j]|e] rest]; simpl; [done| |].
  - destruct (st =? 200); simpl; [|done].
    destruct j as [[| | | | | |d]|e]; simpl; try done.
    by intros ->%negb_true_iff.
  - by intros ->.
Qed.

Lemma energy_statistics_expires c station_id headers bd w ev rest :
  script w = ev :: rest ->
  expires ev = true ->
  fst (energy_statistics c station_id headers bd w) = Raise TimeoutError.
Proof.
  intros Hs. unfold expires, Neovolt.energy_statistics. unfold_m. simpl. rewrite Hs.
  destruct ev as [[st j]|e]; simpl.
  - destruct (st =? 200); simpl; [|done].
    by destruct j as [a|[| | | | | | | |[|k]]].
  - by destruct e as [| | | | | | | |[|k]].
Qed.

Lemma todays_stats_expires c station_id headers bd w ev rest :
  script w = ev :: rest ->
  expires ev = true ->
  fst (todays_stats c station_id headers bd w) = Raise TimeoutError.
Proof.
  intros Hs. unfold expires, Neovolt.todays_stats. unfold_m. simpl. rewrite Hs.
  destruct ev as [[st j]|e]; simpl.
  - destruct (st =? 200); simpl; [|done].
    by destruct j as [a|[| | | | | | | |[|k]]].
  - by destruct e as [| | | | | | | |[|k]].
Qed.

Opaque Neovolt.energy_statistics Neovolt.todays_stats.

(** X4. With the power data accepted and merged into [bd]: a statistics
    request that itself raises a transport error makes the call return
    [bd] at once, today's summary not being asked for; a statistics
    response with another status than 200 or a rejected code is passed
    over, and if today's summary then fails in one of these three ways (or
    the network is gone) the call returns [bd] as well. But when the
    timeout block around either request expires on it, the call returns
    nothing: the handler that absorbs failures sits inside the block, the
    time-out is raised where the block ends. *)
Theorem absorbed_and_lost_failures limit station_id w d1 bd ev2 rest :
  Py.truthy (token (self w)) = true ->
  script w = answers d1 :: ev2 :: rest ->
  code_is_error (code_of d1) = false ->
  merge_power_data d1 = Ret bd ->
  (tolerated lenient ev2 = true ->
   (is_raised ev2 = false ->
    match rest with
    | [] => True
    | ev3 :: _ => tolerated strict ev3 = true
    end) ->
   fst (async_get_battery_data (S limit) station_id w) = Ret (Py.Dict bd)
   /\ script (snd (async_get_battery_data (S limit) station_id w))
      = if is_raised ev2 then rest else tail rest)
  /\ (expires ev2 = true ->
      fst (async_get_battery_data (S limit) station_id w) = Ret Py.None_)
  /\ (tolerated lenient ev2 = true -> is_raised ev2 = false ->
      match rest with
      | [] => False
      | ev3 :: _ => expires ev3 = true
      end ->
      fst (async_get_battery_data (S limit) station_id w) = Ret Py.None_).
Proof.
  intros Ht Hs Hc Hm.
  rewrite (battery_data_on_answer _ _ _ _ _ _ _ _ Ht Hs). cbv zeta.
  rewrite Hc, Hm. unfold try_except, statistics_then_today, bind.
  split; [|split].
  - intros H2 H3.
    match goal with |- context [energy_statistics ?c ?sid ?h ?b ?w1] =>
      destruct (energy_statistics_tolerated c sid h b w1 ev2 rest eq_refl H2) as [He Hr];
      destruct (energy_statistics c sid h b w1) as [o w2]; simpl in He, Hr; subst o
    end.
    destruct (is_raised ev2); simpl; [done|].
    match goal with |- context [todays_stats ?c ?sid ?h ?b ?w] =>
      destruct (todays_stats_tolerated c sid h b w) as [He Hr2];
      [rewrite Hr; by apply H3|];
      destruct (todays_stats c sid h b w) as [o w3]; simpl in He, Hr2; subst o
    end.
    simpl. by rewrite Hr2, Hr.
  - intros Hx.
    match goal with |- context [energy_statistics ?c ?sid ?h ?b ?w1] =>
      pose proof (energy_statistics_expires c sid h b w1 ev2 rest eq_refl Hx) as He;
      destruct (energy_statistics c sid h b w1) as [o w2]; simpl in He; subst o
    end.
    done.
  - intros H2 Hr2 Hx.
    match goal with |- context [energy_statistics ?c ?sid ?h ?b ?w1] =>
      destruct (energy_statistics_tolerated c sid h b w1 ev2 rest eq_refl H2) as [He Hr];
      destruct (energy_statistics c sid h b w1) as [o w2]; simpl in He, Hr; subst o
    end.
    rewrite Hr2. destruct rest as [|ev3 rest']; [done|].
    match goal with |- context [todays_stats ?c ?sid ?h ?b ?w] =>
      pose proof (todays_stats_expires c sid h b w ev3 rest' Hr Hx) as He;
      destruct (todays_stats c sid h b w) as [o w3]; simpl in He; subst o
    end.
    done.
Qed.

End Tolerated.

(** ** What each block may write *)

Lemma copy_field_others data bd field bd' k :
  copy_field data bd field = Ret bd' -> k <> fst field -> bd' !! k = bd !! k.
Proof.
  unfold copy_field. intros (v & _ & [= <-])%and_then_ret Hk.
  by rewrite lookup_insert_ne.
Qed.

Lemma convert_field_others data target source f bd bd' k :
  convert_field data target source f bd = Ret bd' -> k <> target ->
  bd' !! k = bd !! k.
Proof.
  unfold convert_field. intros (x & _ & H)%and_then_ret Hk.
  destruct (Py.is_none x); [by injection H as <-|].
  apply and_then_ret in H as (y & _ & [= <-]). by rewrite lookup_insert_ne.
Qed.

Lemma map_today_others data bd rec k :
  map_today data bd = Ret rec -> ~ In k TODAY_KEYS -> rec !! k = bd !! k.
Proof.
  unfold map_today.
  intros (b1 & H1 & H)%and_then_ret Hk.
  apply and_then_ret in H as (b2 & H2 & H).
  apply and_then_ret in H as (b3 & H3 & H).
  apply and_then_ret in H as (b4 & H4 & H).
  apply and_then_ret in H as (b5 & H5 & H6).
  assert (forall x, In x TODAY_KEYS -> k <> x) as Hne by (intros x Hx ->; done).
  rewrite (copy_fields_others _ _ _ _ _ H6)
    by (intros Hin; apply Hk; vm_compute in Hin |- *; tauto).
  rewrite (convert_field_others _ _ _ _ _ _ _ H5) by (apply Hne; vm_compute; tauto).
  rewrite (copy_field_others _ _ _ _ _ H4) by (apply Hne; vm_compute; tauto).
  rewrite (convert_field_others _ _ _ _ _ _ _ H3) by (apply Hne; vm_compute; tauto).
  rewrite (convert_field_others _ _ _ _ _ _ _ H2) by (apply Hne; vm_compute; tauto).
  apply (copy_fields_others _ _ _ _ _ H1).
  intros Hin; apply Hk; vm_compute in Hin |- *; tauto.
Qed.

Section Writes.
Context (encrypt_password : string -> string -> string)
        (operation_date today : string).

Local Abbreviation async_get_battery_data :=
  (async_get_battery_data encrypt_password operation_date today).
Local Abbreviation energy_statistics := (energy_statistics operation_date today).
Local Abbreviation todays_stats := (todays_stats operation_date today).

Transparent Neovolt.energy_statistics Neovolt.todays_stats.

Lemma energy_statistics_record c station_id headers bd w x k :
  fst (energy_statistics c station_id headers bd w) = Ret x ->
  ~ In k STATISTICS_KEYS ->
  match x with inl b | inr b => b !! k = bd !! k end.
Proof.
  unfold Neovolt.energy_statistics, STATISTICS_KEYS. unfold_m. simpl.
  intros H Hk. revert H.
  destruct (script w) as [|[[st j]|e] rest]; simpl; [by intros [= <-]| |].
  - destruct (st =? 200); simpl; [|by intros [= <-]].
    destruct j as [a|e]; simpl; [|by destruct (is_transport e)].
    destruct (Py.get a "code") as [code|e]; simpl; [|done].
    destruct (Py.eq_int code 200 || Py.eq_int code 0); simpl; [|by intros [= <-]].
    destruct (Py.get_or_empty a "data") as [sd|e]; simpl; [|done].
    destruct (Py.truthy sd); simpl; [|by intros [= <-]].
    destruct (Py.keys sd) as [ks|e]; simpl; [|done].
    destruct (copy_fields sd STATISTICS_FIELDS bd) as [bd1|e] eqn:Hc; simpl; [|done].
    intros [= <-]. by apply (copy_fields_others _ _ _ _ _ Hc).
  - destruct (is_transport e); simpl; [by intros [= <-]|done].
Qed.

Lemma todays_stats_record c station_id headers bd w y k :
  fst (todays_stats c station_id headers bd w) = Ret y ->
  ~ In k TODAY_KEYS -> y !! k = bd !! k.
Proof.
  unfold Neovolt.todays_stats. unfold_m. simpl.
  intros H Hk. revert H.
  destruct (script w) as [|[[st j]|e] rest]; simpl; [by intros [= <-]| |].
  - destruct (st =? 200); simpl; [|by intros [= <-]].
    destruct j as [a|e]; simpl; [|by destruct (is_transport e)].
    destruct (Py.get a "code") as [code|e]; simpl; [|done].
    destruct (Py.eq_int code 200); simpl; [|by intros [= <-]].
    destruct (Py.get_or_empty a "data") as [td|e]; simpl; [|done].
    destruct (Py.truthy td); simpl; [|by intros [= <-]].
    destruct (map_today td bd) as [bd1|e] eqn:Hm; simpl; [|done].
    intros [= <-]. by apply (map_today_others _ _ _ _ Hm).
  - destruct (is_transport e); simpl; [by intros [= <-]|done].
Qed.

(** A statistics answer that is accepted with a non-empty payload copies
    the eight fields. *)
Lemma energy_statistics_on_answer c station_id headers bd w d sd rest :
  script w = answers d :: rest ->
  lenient (code_of d) = true -> d !! "data" = Some (Py.Dict sd) -> sd <> ∅ ->
  fst (energy_statistics c station_id headers bd w)
  = Ret (inr (fold_left (fun acc f => <[fst f := default Py.None_ (sd !! snd f)]> acc)
                        STATISTICS_FIELDS bd))
  /\ script (snd (energy_statistics c station_id headers bd w)) = rest.
Proof.
  intros Hs Hc Hd Hne. unfold lenient, code_of, Neovolt.energy_statistics in *.
  unfold_m. simpl. rewrite Hs. simpl.
  rewrite (orb_comm (Py.eq_int _ 200)), Hc, Hd. simpl.
  pose proof (truthy_dict_nonempty _ Hne) as Htr. simpl in Htr. rewrite Htr. simpl.
  done.
Qed.

Opaque Neovolt.energy_statistics Neovolt.todays_stats.

(** The record a call returns, traced back to the two further blocks. *)
Lemma battery_data_record limit station_id w d1 rest rec :
  Py.truthy (token (self w)) = true ->
  script w = answers d1 :: rest ->
  fst (async_get_battery_data (S limit) station_id w) = Ret (Py.Dict rec) ->
  exists c headers w1 x,
    script w1 = rest
    /\ fst (energy_statistics c station_id headers (power_data d1) w1) = Ret x
    /\ match x with
       | inl b => rec = b
       | inr b =>
           fst (todays_stats c station_id headers b
                  (snd (energy_statistics c station_id headers (power_data d1) w1)))
           = Ret rec
       end.
Proof.
  intros Ht Hs. rewrite (battery_data_on_answer _ _ _ _ _ _ _ _ Ht Hs). cbv zeta.
  destruct (code_is_error (code_of d1)); [done|].
  pose proof (merge_power_data_spec d1) as Hm.
  destruct (merge_power_data d1) as [bd|e]; [subst bd|done].
  unfold try_except, statistics_then_today, bind.
  match goal with |- context [energy_statistics ?c ?sid ?h ?b ?w1] =>
    intros Hr; exists c, h, w1;
    destruct (energy_statistics c sid h b w1) as [[[x|bd2]|e] w2] eqn:He; simpl in *
  end.
  - injection Hr as ->. by exists (inl rec).
  - exists (inr bd2). split; [done|]. split; [done|].
    match goal with |- context [todays_stats ?c ?sid ?h ?b ?w] =>
      destruct (todays_stats c sid h b w) as [[y|e] w3]; simpl in *
    end.
    + by injection Hr as ->.
    + by destruct (is_transport e).
  - by destruct (is_transport e).
Qed.

End Writes.

Section RecordProperties.
Context (encrypt_password : string -> string -> string)
        (operation_date today : string).

Local Abbreviation async_get_battery_data :=
  (async_get_battery_data encrypt_password operation_date today).
Local Abbreviation energy_statistics := (energy_statistics operation_date today).
Local Abbreviation todays_stats := (todays_stats operation_date today).

(** X5. Whatever follows the power data, a record that is returned holds
    under every key that is neither a statistics key nor a key of today's
    summary exactly what the power data held: the two further blocks add
    their own keys and touch nothing else. *)
Theorem power_data_survives limit station_id w d1 rest rec k :
  Py.truthy (token (self w)) = true ->
  script w = answers d1 :: rest ->
  fst (async_get_battery_data (S limit) station_id w) = Ret (Py.Dict rec) ->
  ~ In k STATISTICS_KEYS -> ~ In k TODAY_KEYS ->
  rec !! k = power_data d1 !! k.
Proof.
  intros Ht Hs Hr Hk1 Hk2.
  destruct (battery_data_record _ _ _ _ _ _ _ _ _ Ht Hs Hr)
    as (c & headers & w1 & x & _ & Hx & Hrec).
  pose proof (energy_statistics_record _ _ _ _ _ _ _ _ _ Hx Hk1) as He.
  destruct x as [b|b]; [by subst b|].
  by rewrite (todays_stats_record _ _ _ _ _ _ _ _ _ Hrec Hk2).
Qed.

(** X6. When the second answer is accepted with a non-empty payload [sd],
    a record that is returned holds each of the eight statistics keys, with
    the value of its source field or [None] where [sd] lacks the field,
    whatever today's summary did afterwards. *)
Theorem statistics_keys_written limit station_id w d1 d2 sd rest rec :
  Py.truthy (token (self w)) = true ->
  script w = answers d1 :: answers d2 :: rest ->
  lenient (code_of d2) = true -> d2 !! "data" = Some (Py.Dict sd) -> sd <> ∅ ->
  fst (async_get_battery_data (S limit) station_id w) = Ret (Py.Dict rec) ->
  forall target source, In (target, source) STATISTICS_FIELDS ->
    rec !! target = Some (default Py.None_ (sd !! source)).
Proof.
  intros Ht Hs Hc Hd Hne Hr target source Hin.
  destruct (battery_data_record _ _ _ _ _ _ _ _ _ Ht Hs Hr)
    as (c & headers & w1 & x & Hs1 & Hx & Hrec).
  destruct (energy_statistics_on_answer operation_date today c station_id headers
              (power_data d1) w1 d2 sd rest Hs1 Hc Hd Hne) as [He _].
  rewrite He in Hx. injection Hx as <-.
  rewrite (todays_stats_record _ _ _ _ _ _ _ _ _ Hrec).
  - simpl in Hin. clear -Hin.
    repeat (destruct Hin as [[= <- <-]|Hin]); [..|done]; by simplify_map_eq.
  - simpl in Hin. clear -Hin.
    repeat (destruct Hin as [[= <- _]|Hin]); [..|done];
      vm_compute; intros H; repeat (destruct H as [H|H]; [discriminate H|]); done.
Qed.

End RecordProperties.

(** ** The first request of a guarded block *)



Section FirstRequest.
Context (encrypt_password : string -> string -> string)
        (operation_date today : string).

Local Abbreviation async_login := (async_login encrypt_password).
Local Abbreviation ensure_token := (ensure_token encrypt_password).
Local Abbreviation async_get_device_list :=
  (async_get_device_list encrypt_password).
Local Abbreviation async_get_battery_data :=
  (async_get_battery_data encrypt_password operation_date today).



End FirstRequest.

(** ** Retrying with the new token, without end *)

Section Retried.
Context (encrypt_password : string -> string -> string)
        (operation_date today : string).

Local Abbreviation async_login := (async_login encrypt_password).
Local Abbreviation ensure_token := (ensure_token encrypt_password).
Local Abbreviation async_get_device_list :=
  (async_get_device_list encrypt_password).
Local Abbreviation async_get_battery_data :=
  (async_get_battery_data encrypt_password operation_date today).









End Retried.

(** ** Fields of the wrong type *)

Lemma percentage_str s : percentage (Py.Str s) = Raise TypeError.
Proof. reflexivity. Qed.

Lemma kg_to_tons_str s : kg_to_tons (Py.Str s) = Raise TypeError.
Proof. reflexivity. Qed.

(** A percentage is computed or fails with [TypeError], nothing else. *)
Lemma percentage_outcome x :
  (exists y, percentage x = Ret y) \/ percentage x = Raise TypeError.
Proof.
  destruct x; try (by right); try (left; eexists; reflexivity).
Qed.

Lemma convert_percentage_outcome td target source bd :
  (exists bd', convert_field (Py.Dict td) target source percentage bd = Ret bd')
  \/ convert_field (Py.Dict td) target source percentage bd = Raise TypeError.
Proof.
  rewrite convert_field_dict.
  destruct (td !! source) as [x|]; [|by left; eexists].
  destruct (percentage_outcome x) as [[y Hy]|Hy]; rewrite Hy; simpl;
    destruct x; try (by right); by left; eexists.
Qed.

Lemma map_today_string td bd source s :
  In source CONVERTED_SOURCES -> td !! source = Some (Py.Str s) ->
  map_today (Py.Dict td) bd = Raise TypeError.
Proof.
  intros Hin Hs. unfold map_today. rewrite copy_fields_dict.
  cbn [and_then].
  match goal with |- and_then (convert_field _ _ _ _ ?b) _ = _ => set (b0 := b) end.
  assert (convert_field (Py.Dict td) "Self_Consumption" "eselfConsumption" percentage b0
          = Raise TypeError
          \/ exists b1,
               convert_field (Py.Dict td) "Self_Consumption" "eselfConsumption"
                 percentage b0 = Ret b1) as [H1|[b1 H1]]
    by (destruct (convert_percentage_outcome td "Self_Consumption" "eselfConsumption" b0);
        tauto).
  { by rewrite H1. }
  assert (source = "eselfConsumption" -> False) as Hn1.
  { intros ->. rewrite convert_field_dict, Hs, percentage_str in H1. done. }
  rewrite H1. cbn [and_then].
  destruct (convert_percentage_outcome td "Self_Sufficiency" "eselfSufficiency" b1)
    as [[b2 H2]|H2]; [|by rewrite H2].
  assert (source = "eselfSufficiency" -> False) as Hn2.
  { intros ->. rewrite convert_field_dict, Hs, percentage_str in H2. done. }
  rewrite H2. cbn [and_then]. rewrite copy_field_dict. cbn [and_then].
  assert (source = "carbonNum") as ->.
  { vm_compute in Hin. destruct Hin as [<-|[<-|[<-|[]]]]; tauto. }
  by rewrite convert_field_dict, Hs, kg_to_tons_str.
Qed.

Section WrongType.
Context (encrypt_password : string -> string -> string)
        (operation_date today : string).

Local Abbreviation async_get_battery_data :=
  (async_get_battery_data encrypt_password operation_date today).
Local Abbreviation energy_statistics := (energy_statistics operation_date today).
Local Abbreviation todays_stats := (todays_stats operation_date today).

Transparent Neovolt.energy_statistics.

(** After a response that passes, the statistics block hands a record on
    to today's summary. *)
Lemma energy_statistics_passes c station_id headers bd w ev rest :
  script w = ev :: rest ->
  passes_statistics ev = true ->
  exists bd2,
    fst (energy_statistics c station_id headers bd w) = Ret (inr bd2)
    /\ script (snd (energy_statistics c station_id headers bd w)) = rest.
Proof.
  intros Hs. unfold passes_statistics, lenient, code_of, Neovolt.energy_statistics.
  unfold_m. simpl. rewrite Hs.
  destruct ev as [[st j]|e]; simpl; [|done].
  destruct (st =? 200); simpl; [|by eexists].
  destruct j as [[| | | | | |d]|e]; simpl; try done.
  set (code := default Py.None_ (d !! "code")).
  rewrite (orb_comm (Py.eq_int code 200) (Py.eq_int code 0)).
  destruct (Py.eq_int code 0 || Py.eq_int code 200); simpl; [|by eexists].
  destruct (d !! "data") as [x|]; simpl.
  - destruct x as [| | | | | |sd]; simpl; intros H;
      try rewrite (proj1 (negb_true_iff _) H); simpl;
      repeat (match goal with |- context [negb ?b] => destruct (negb b) end; simpl);
      by eexists.
  - intros _. rewrite bool_decide_eq_true_2 by (by rewrite map_to_list_empty).
    simpl. by eexists.
Qed.

Opaque Neovolt.energy_statistics.

(** X9. When today's summary is accepted and one of the three fields it
    computes with ([eselfConsumption], [eselfSufficiency], [carbonNum])
    holds a string, even a numeric one, the whole call raises [TypeError]:
    neither the power data nor the statistics gathered so far are
    returned, whether the statistics response was accepted or not. *)
Theorem string_fraction_raises
    limit station_id w d1 bd ev2 d3 td source s rest :
  Py.truthy (token (self w)) = true ->
  script w = answers d1 :: ev2 :: answers d3 :: rest ->
  code_is_error (code_of d1) = false ->
  merge_power_data d1 = Ret bd ->
  passes_statistics ev2 = true ->
  strict (code_of d3) = true -> d3 !! "data" = Some (Py.Dict td) ->
  In source CONVERTED_SOURCES -> td !! source = Some (Py.Str s) ->
  fst (async_get_battery_data (S limit) station_id w) = Raise TypeError.
Proof.
  intros Ht Hs Hc Hm H2 Hc3 Hd3 Hin Hsrc.
  assert (td <> ∅) as Hne by (intros ->; by rewrite lookup_empty in Hsrc).
  rewrite (battery_data_on_answer _ _ _ _ _ _ _ _ Ht Hs). cbv zeta.
  rewrite Hc, Hm. unfold try_except, statistics_then_today, bind.
  match goal with |- context [energy_statistics ?c ?sid ?h ?b ?w1] =>
    destruct (energy_statistics_passes c sid h b w1 ev2
                (answers d3 :: rest) eq_refl H2) as (bd2 & He & Hr);
    destruct (energy_statistics c sid h b w1) as [o w2]; simpl in He, Hr; subst o
  end.
  match goal with |- context [todays_stats ?c ?sid ?h ?b ?w] =>
    pose proof (todays_stats_on_answer operation_date today c sid h b w d3 td rest
                  Hr Hc3 Hd3 Hne) as Hm2;
    destruct (todays_stats c sid h b w) as [o w3]; simpl in Hm2; subst o
  end.
  by rewrite (map_today_string _ _ _ _ Hin Hsrc).
Qed.

End WrongType.

(** ** What no operation touches *)

Section Credentials.
Context (encrypt_password : string -> string -> string)
        (operation_date today : string).

Local Abbreviation async_login := (async_login encrypt_password).
Local Abbreviation async_get_device_list :=
  (async_get_device_list encrypt_password).
Local Abbreviation async_get_battery_data :=
  (async_get_battery_data encrypt_password operation_date today).

(** What [w'] owes to [w] when only requests and records were added. *)
Lemma ext_tok_session P w w' :
  ext_tok P w w' ->
  username (self w') = username (self w)
  /\ password (self w') = password (self w)
  /\ base_url (self w') = base_url (self w)
  /\ (exists t, trace w' = trace w ++ t)
  /\ (exists used, script w = used ++ script w').
Proof.
  intros [(Hu & Hp & Hb & _ & [used Hs] & t & Ht & _) _].
  repeat split; try done; [by exists t | by exists used].
Qed.

(** X10. None of the three operations, whatever the vendor does and
    however deep the retries go, changes the user name, the password or
    the base URL of the session, drops anything from the trace of what was
    sent and logged, or reads the vendor's answers other than in order:
    what is left of the answers is a tail of what there was. *)
Theorem operations_leave_credentials limit station_id w :
  let unchanged (w' : world) :=
    username (self w') = username (self w)
    /\ password (self w') = password (self w)
    /\ base_url (self w') = base_url (self w)
    /\ (exists t, trace w' = trace w ++ t)
    /\ (exists used, script w = used ++ script w') in
  unchanged (snd (async_login w))
  /\ unchanged (snd (async_get_device_list limit w))
  /\ unchanged (snd (async_get_battery_data limit station_id w)).
Proof.
  simpl. split; [|split]; eapply ext_tok_session.
  - apply (login_keeps_any encrypt_password).
  - apply (device_list_keeps encrypt_password).
  - apply (battery_data_keeps encrypt_password operation_date today).
Qed.

End Credentials.

(** ** Closed runs of the further properties *)

Lemma no_token_no_data_request_witness :
  let w := start Py.None_ [status_only 500; status_only 500] in
  fst (login w) = Ret false
  /\ get_device_list w = (Ret Py.None_, snd (login w))
  /\ get_battery_data w = (Ret Py.None_, snd (login w)).
Proof.
  intros w.
  assert (fst (login w) = Ret false) as Hl by (vm_compute; reflexivity).
  split; [exact Hl|].
  exact (no_token_no_data_request sample_encrypt sample_operation_date sample_today
           99 None w eq_refl Hl).
Defined.

Lemma no_token_logs_in_first_witness :
  let w := mkWorld (init "user" "secret" DEFAULT_BASE_URL) [] [] [] in
  exists more,
    sends (trace (snd (get_device_list w)))
    = sends (trace w)
      ++ (DEFAULT_TIMEOUT :: scopes w, primary_request sample_encrypt (self w)) :: more.
Proof.
  intros w.
  exact (proj1 (no_token_logs_in_first sample_encrypt sample_operation_date
                  sample_today 99 None w eq_refl)).
Defined.

Lemma absorbed_and_lost_failures_witness :
  let d1 : gmap string Py.val :=
    list_to_map [("code", Py.Int 200);
                 ("data", Py.Dict (list_to_map [("soc", Py.Int 80)]))] in
  let absorbed :=
    start (Py.Str "t") [answers d1; Fails TimeoutError; status_only 200] in
  let lost :=
    start (Py.Str "t") [answers d1; Fails (CancelledError 0); status_only 200] in
  merge_power_data d1 = Ret (list_to_map [("soc", Py.Int 80)])
  /\ fst (get_battery_data absorbed)
     = Ret (Py.Dict (list_to_map [("soc", Py.Int 80)]))
  /\ script (snd (get_battery_data absorbed)) = [status_only 200]
  /\ fst (get_battery_data lost) = Ret Py.None_.
Proof.
  intros d1 absorbed lost.
  assert (merge_power_data d1 = Ret (list_to_map [("soc", Py.Int 80)])) as Hm
    by (vm_compute; reflexivity).
  split; [exact Hm|].
  destruct (absorbed_and_lost_failures sample_encrypt sample_operation_date
              sample_today 99 None absorbed d1 _ (Fails TimeoutError) [status_only 200]
              eq_refl eq_refl eq_refl Hm) as [H1 _].
  destruct (absorbed_and_lost_failures sample_encrypt sample_operation_date
              sample_today 99 None lost d1 _ (Fails (CancelledError 0)) [status_only 200]
              eq_refl eq_refl eq_refl Hm) as (_ & H2 & _).
  destruct (H1 eq_refl (fun H => False_ind _ (diff_true_false H))) as [Ha Hb].
  split; [exact Ha|]. split; [exact Hb|]. exact (H2 eq_refl).
Defined.

Lemma power_data_survives_witness :
  let d1 : gmap string Py.val :=
    list_to_map [("code", Py.Int 200);
                 ("data", Py.Dict (list_to_map [("soc", Py.Int 80)]))] in
  let d3 : gmap string Py.val :=
    list_to_map [("code", Py.Int 200);
                 ("data", Py.Dict (list_to_map [("epvtoday", Py.Int 5)]))] in
  let w := start (Py.Str "t") [answers d1; status_only 500; answers d3] in
  let rec := record_of (fst (get_battery_data w)) in
  fst (get_battery_data w) = Ret (Py.Dict rec)
  /\ rec !! "soc" = Some (Py.Int 80).
Proof.
  intros d1 d3 w rec.
  assert (fst (get_battery_data w) = Ret (Py.Dict rec)) as Hr
    by (vm_compute; reflexivity).
  split; [exact Hr|].
  apply (power_data_survives sample_encrypt sample_operation_date sample_today
           99 None w d1 [status_only 500; answers d3] rec "soc" eq_refl eq_refl Hr).
  - vm_compute. intros H. repeat (destruct H as [H|H]; [discriminate H|]). exact H.
  - vm_compute. intros H. repeat (destruct H as [H|H]; [discriminate H|]). exact H.
Defined.

Lemma statistics_keys_written_witness :
  let sd : gmap string Py.val := list_to_map [("epvT", Py.Int 7)] in
  let d1 : gmap string Py.val := list_to_map [("code", Py.Int 200)] in
  let d2 : gmap string Py.val :=
    list_to_map [("code", Py.Int 0); ("data", Py.Dict sd)] in
  let w := start (Py.Str "t") [answers d1; answers d2; Fails TimeoutError] in
  let rec := record_of (fst (get_battery_data w)) in
  fst (get_battery_data w) = Ret (Py.Dict rec)
  /\ rec !! "Total_Solar_Generation" = Some (Py.Int 7)
  /\ rec !! "Total_Feed_In" = Some Py.None_.
Proof.
  intros sd d1 d2 w rec.
  assert (fst (get_battery_data w) = Ret (Py.Dict rec)) as Hr
    by (vm_compute; reflexivity).
  assert (sd <> ∅) as Hne.
  { intros H. apply (f_equal (fun m : gmap string Py.val => m !! "epvT")) in H.
    vm_compute in H. discriminate H. }
  pose proof (statistics_keys_written sample_encrypt sample_operation_date sample_today
                99 None w d1 d2 sd [Fails TimeoutError] rec
                eq_refl eq_refl eq_refl eq_refl Hne Hr) as H.
  split; [exact Hr|]. split.
  - exact (H "Total_Solar_Generation" "epvT" (or_introl eq_refl)).
  - exact (H "Total_Feed_In" "eout" (or_intror (or_introl eq_refl))).
Defined.



Lemma string_fraction_raises_witness :
  let d1 : gmap string Py.val :=
    list_to_map [("code", Py.Int 200);
                 ("data", Py.Dict (list_to_map [("soc", Py.Int 80)]))] in
  let d2 : gmap string Py.val :=
    list_to_map [("code", Py.Int 200);
                 ("data", Py.Dict (list_to_map [("epvT", Py.Int 7)]))] in
  let td : gmap string Py.val := list_to_map [("eselfConsumption", Py.Str "0.85")] in
  let d3 : gmap string Py.val :=
    list_to_map [("code", Py.Int 200); ("data", Py.Dict td)] in
  let w := start (Py.Str "t") [answers d1; answers d2; answers d3] in
  merge_power_data d1 = Ret (list_to_map [("soc", Py.Int 80)])
  /\ fst (get_battery_data w) = Raise TypeError.
Proof.
  intros d1 d2 td d3 w.
  assert (merge_power_data d1 = Ret (list_to_map [("soc", Py.Int 80)])) as Hm
    by (vm_compute; reflexivity).
  split; [exact Hm|].
  apply (string_fraction_raises sample_encrypt sample_operation_date sample_today
           99 None w d1 _ (answers d2) d3 td "eselfConsumption" "0.85" []
           eq_refl eq_refl eq_refl Hm eq_refl eq_refl eq_refl);
    [by left|reflexivity].
Defined.

(** ** Every request has its timeout *)

(** The two shapes in which the client awaits a request: directly inside
    [async with asyncio.timeout(DEFAULT_TIMEOUT)], or there inside a [try]
    of its own. *)
Lemma timed_send r w :
  ext timed (enter DEFAULT_TIMEOUT w) (snd (send r (enter DEFAULT_TIMEOUT w))).
Proof.
  unfold send, enter. simpl.
  destruct (script w) as [|[resp|e] rest] eqn:Hs; simpl;
    (repeat split; try done;
     first [ by apply suffix_cons_r
           | eexists [_]; split; [done|]; done ]).
Qed.

Lemma timed_block {A} r (K : response -> M A) :
  (forall a, keeps (ext timed) (K a)) ->
  keeps (ext timed) (with_timeout DEFAULT_TIMEOUT (bind (send r) K)).
Proof.
  intros HK w. unfold with_timeout, bind.
  pose proof (timed_send r w) as Hs. unfold enter in Hs.
  destruct (send r _) as [[a|e] w1]; simpl in *.
  - pose proof (HK a w1) as Hk. destruct (K a w1) as [o w2]. simpl in *.
    apply (frame_scope (R := ext timed) DEFAULT_TIMEOUT w w2).
    by eapply ext_trans.
  - by apply (frame_scope (R := ext timed) DEFAULT_TIMEOUT w w1).
Qed.

Lemma timed_block_try {A B} r (K0 : response -> M A) (handler : M A) (K : A -> M B) :
  (forall a, keeps (ext timed) (K0 a)) ->
  keeps (ext timed) handler ->
  (forall a, keeps (ext timed) (K a)) ->
  keeps (ext timed)
    (with_timeout DEFAULT_TIMEOUT (bind (try_except (bind (send r) K0) handler) K)).
Proof.
  intros HK0 Hh HK w. unfold with_timeout, bind, try_except.
  pose proof (timed_send r w) as Hs. unfold enter in Hs.
  assert (forall o w1, ext timed (enter DEFAULT_TIMEOUT w) w1 ->
            ext timed w (leave w (snd (match o with
                                       | Ret a => K a w1
                                       | Raise e => (Raise e, w1)
                                       end)))) as Hrest.
  { intros [a|e] w1 H1; simpl.
    - pose proof (HK a w1) as Hk.
      apply (frame_scope (R := ext timed) DEFAULT_TIMEOUT w). by eapply ext_trans.
    - by apply (frame_scope (R := ext timed) DEFAULT_TIMEOUT w). }
  unfold enter, leave in Hrest.
  destruct (send r _) as [[a|e] w1]; simpl in *.
  - pose proof (HK0 a w1) as Hk0.
    destruct (K0 a w1) as [[a'|e'] w2] eqn:He; simpl in *.
    + specialize (Hrest (Ret a') w2 ltac:(by eapply ext_trans)).
      simpl in Hrest. by destruct (K a' w2).
    + destruct (is_transport e').
      * pose proof (Hh w2) as Hh2.
        specialize (Hrest (fst (handler w2)) (snd (handler w2))
                      ltac:(eapply ext_trans; [|exact Hh2]; by eapply ext_trans)).
        destruct (handler w2) as [[a''|e''] w3]; simpl in *; [by destruct (K a'' w3)|done].
      * apply (Hrest (Raise e') w2). by eapply ext_trans.
  - destruct (is_transport e).
    + pose proof (Hh w1) as Hh1.
      specialize (Hrest (fst (handler w1)) (snd (handler w1))
                    ltac:(by eapply ext_trans)).
      destruct (handler w1) as [[a''|e''] w3]; simpl in *; [by destruct (K a'' w3)|done].
    + exact (Hrest (Raise e) w1 Hs).
Qed.

(** As [keep], with the requests taken together with their timeout. *)
Ltac keep_timed :=
  repeat first
    [ solve [eauto with frame]
    | apply timed_block | apply timed_block_try
    | apply keeps_ret | apply keeps_raise | apply keeps_lift
    | apply keeps_get_self | apply ext_set_token
    | apply keeps_bind | apply keeps_try | apply keeps_with_timeout
    | apply ext_log; reflexivity
    | match goal with
      | |- Frame _ => typeclasses eauto
      | |- forall _, _ => intro
      | |- keeps _ (if ?b then _ else _) => destruct b
      | |- keeps _ (match ?x with _ => _ end) => destruct x
      end ].

Transparent store_token _async_login_fallback.

Lemma store_token_timed result missing : keeps (ext timed) (store_token result missing).
Proof. unfold store_token. keep_timed. Qed.

Lemma fallback_timed : keeps (ext timed) _async_login_fallback.
Proof. unfold _async_login_fallback. pose proof store_token_timed. keep_timed. Qed.

Opaque store_token _async_login_fallback.

Section Timed.
Context (encrypt_password : string -> string -> string)
        (operation_date today : string).

Local Abbreviation async_login := (async_login encrypt_password).
Local Abbreviation ensure_token := (ensure_token encrypt_password).
Local Abbreviation async_get_device_list :=
  (async_get_device_list encrypt_password).
Local Abbreviation async_get_battery_data :=
  (async_get_battery_data encrypt_password operation_date today).
Local Abbreviation energy_statistics := (energy_statistics operation_date today).
Local Abbreviation todays_stats := (todays_stats operation_date today).

Transparent Neovolt.async_login Neovolt.ensure_token Neovolt.energy_statistics Neovolt.todays_stats.

Lemma login_timed : keeps (ext timed) async_login.
Proof.
  unfold Neovolt.async_login. pose proof store_token_timed. pose proof fallback_timed.
  keep_timed.
Qed.

Lemma ensure_token_timed : keeps (ext timed) ensure_token.
Proof. unfold Neovolt.ensure_token. pose proof login_timed. keep_timed. Qed.

Lemma energy_statistics_timed c station_id headers bd :
  keeps (ext timed) (energy_statistics c station_id headers bd).
Proof. unfold Neovolt.energy_statistics. keep_timed. Qed.

Lemma todays_stats_timed c station_id headers bd :
  keeps (ext timed) (todays_stats c station_id headers bd).
Proof. unfold Neovolt.todays_stats. keep_timed. Qed.

Opaque Neovolt.async_login Neovolt.ensure_token Neovolt.energy_statistics Neovolt.todays_stats.

Lemma device_list_timed limit : keeps (ext timed) (async_get_device_list limit).
Proof.
  induction limit as [|limit IH]; simpl; [apply keeps_raise; apply _|].
  pose proof login_timed. pose proof ensure_token_timed.
  unfold _get_auth_headers. keep_timed.
Qed.

Lemma battery_data_timed limit station_id :
  keeps (ext timed) (async_get_battery_data limit station_id).
Proof.
  induction limit as [|limit IH]; simpl; [apply keeps_raise; apply _|].
  pose proof login_timed. pose proof ensure_token_timed.
  pose proof energy_statistics_timed. pose proof todays_stats_timed.
  unfold _get_auth_headers. keep_timed.
Qed.

Lemma ext_timed_sends w w' :
  ext timed w w' ->
  exists t,
    trace w' = trace w ++ t
    /\ forall bounds r, In (bounds, r) (sends t) -> head bounds = Some DEFAULT_TIMEOUT.
Proof.
  intros (_ & _ & _ & _ & _ & t & Ht & Hall). exists t. split; [done|].
  clear Ht. induction t as [|o t IH]; simpl; [done|].
  simpl in Hall. apply andb_prop in Hall as [Ho Hall].
  intros bounds r Hin. destruct o as [b r'|l m]; simpl in Hin;
    [|by apply (IH Hall bounds r)].
  destruct Hin as [[= <- <-]|Hin]; [|by apply (IH Hall bounds r)].
  destruct b as [|b0 b]; simpl in *; [done|]. apply Z.eqb_eq in Ho. by subst b0.
Qed.

(** X11. Every request that any of the three operations sends, whatever
    the vendor does and however deep the retries go, is sent inside
    [async with asyncio.timeout(DEFAULT_TIMEOUT)]: the innermost timeout
    around it is the 30 seconds. *)
Theorem every_request_is_timed limit station_id w :
  let all_timed (w' : world) :=
    exists t,
      trace w' = trace w ++ t
      /\ forall bounds r, In (bounds, r) (sends t) -> head bounds = Some DEFAULT_TIMEOUT in
  all_timed (snd (async_login w))
  /\ all_timed (snd (async_get_device_list limit w))
  /\ all_timed (snd (async_get_battery_data limit station_id w)).
Proof.
  simpl. split; [|split]; apply ext_timed_sends.
  - apply login_timed.
  - apply device_list_timed.
  - apply battery_data_timed.
Qed.

End Timed.
